(** * AI therapist agent: the dispatcher and its three tool clients

    A shallow embedding of [backend/ai_agent.py] and [backend/tools.py].

    Python strings are sequences of Unicode code points, Python values are
    a small dynamically-typed universe, and Python exceptions are carried by
    an error monad.  Calls to the three external services (the ollama chat
    backend, the Nominatim search endpoint and the Twilio client) are
    answered by an environment and recorded in a trace of events. *)

From Stdlib Require Import ZArith QArith String Ascii List.
From stdpp Require Import base option list gmap.

Set Default Proof Using "Type".
Set Warnings "-register-all,-clear-no-such-hyp".
Local Open Scope string_scope.
Local Open Scope list_scope.

(** ** Python strings *)

(** A [str] is a sequence of code points: [len] counts code points and
    [split] cuts at a code point. *)
Definition pystr : Type := list N.

(** An ASCII literal of the source. *)
Definition str (s : string) : pystr :=
  map N_of_ascii (list_ascii_of_string s).

Definition len (s : pystr) : nat := length s.

(** [s.split(sep)] for a one-character separator: always at least one
    segment. *)
Fixpoint split (sep : N) (s : pystr) : list pystr :=
  match s with
  | [] => [[]]
  | c :: rest =>
      if N.eqb c sep then [] :: split sep rest
      else match split sep rest with
           | [] => [[c]]
           | seg :: segs => (c :: seg) :: segs
           end
  end.

(** [sep.join(parts)] on a list of strings. *)
Fixpoint join (sep : pystr) (parts : list pystr) : pystr :=
  match parts with
  | [] => []
  | [p] => p
  | p :: rest => p ++ sep ++ join sep rest
  end.

(** [str.isspace] on one code point (the Unicode whitespace of CPython). *)
Definition isspace (c : N) : bool :=
  ((9 <=? c) && (c <=? 13) || (28 <=? c) && (c <=? 32)
   || (c =? 133) || (c =? 160) || (c =? 5760)
   || (8192 <=? c) && (c <=? 8202) || (c =? 8232) || (c =? 8233)
   || (c =? 8239) || (c =? 8287) || (c =? 12288))%N.

Fixpoint lstrip (s : pystr) : pystr :=
  match s with
  | c :: rest => if isspace c then lstrip rest else s
  | [] => []
  end.

Definition rstrip (s : pystr) : pystr := rev (lstrip (rev s)).

(** [s.strip()] *)
Definition strip (s : pystr) : pystr := rstrip (lstrip s).

(** ** Python values *)

Inductive value : Type :=
| VNone
| VBool (b : bool)
| VNum (q : Q)
| VStr (s : pystr)
| VList (items : list value)
| VDict (entries : list (pystr * value))
| VObj (attrs : list (pystr * value)).

(** Lookup of a key in a dict or of an attribute in an object. *)
Fixpoint lookup_key (k : pystr) (d : list (pystr * value)) : option value :=
  match d with
  | [] => None
  | (k', v) :: rest => if decide (k' = k) then Some v else lookup_key k rest
  end.

(** Truth value of an object in a condition. *)
Definition truthy (v : value) : bool :=
  match v with
  | VNone => false
  | VBool b => b
  | VNum q => negb (Qeq_bool q 0)
  | VStr s => negb (bool_decide (s = []))
  | VList l => negb (bool_decide (length l = 0%nat))
  | VDict d => negb (bool_decide (length d = 0%nat))
  | VObj _ => true
  end.

Definition isinstance_list (v : value) : bool :=
  match v with VList _ => true | _ => false end.

(** ** Exceptions *)

(** The exceptions a call can raise; all of them derive from [Exception]. *)
Inductive exn : Type :=
| AttributeError
| TypeError
| KeyError
| ServiceError (what : string).

Inductive outcome (A : Type) : Type :=
| Ok (a : A)
| Raise (e : exn).
Arguments Ok {A} a.
Arguments Raise {A} e.

#[global] Instance outcome_ret : MRet outcome := fun A a => Ok a.
#[global] Instance outcome_bind : MBind outcome := fun A B f m =>
  match m with
  | Ok a => f a
  | Raise e => Raise e
  end.

(** A [for] loop whose body may raise. *)
Fixpoint for_each {A S : Type} (body : S -> A -> outcome S)
    (xs : list A) (st : S) : outcome S :=
  match xs with
  | [] => Ok st
  | x :: rest => st' ← body st x; for_each body rest st'
  end.

(** [obj.get(key, dflt)]: a dict method; an object of another type has no
    attribute [get] (or, for a plain object that stores one, a data
    attribute that cannot be called). *)
Definition dict_get (obj : value) (key : pystr) (dflt : value) : outcome value :=
  match obj with
  | VDict d => Ok (default dflt (lookup_key key d))
  | VObj attrs =>
      match lookup_key (str "get") attrs with
      | Some _ => Raise TypeError
      | None => Raise AttributeError
      end
  | _ => Raise AttributeError
  end.

(** [getattr(obj, name, dflt)]: never raises.  The built-in types of the
    universe have neither a [name] nor a [content] attribute. *)
Definition getattr (obj : value) (name : pystr) (dflt : value) : value :=
  match obj with
  | VObj attrs => default dflt (lookup_key name attrs)
  | _ => dflt
  end.

(** [obj.name] *)
Definition attr (obj : value) (name : pystr) : outcome value :=
  match obj with
  | VObj attrs =>
      match lookup_key name attrs with
      | Some v => Ok v
      | None => Raise AttributeError
      end
  | _ => Raise AttributeError
  end.

(** The elements a [for] statement visits in a list. *)
Definition list_items (v : value) : list value :=
  match v with VList l => l | _ => [] end.

(** [for x in v]: a list yields its items, a dict its keys, a string its
    characters; the other values are not iterable. *)
Definition iterate (v : value) : outcome (list value) :=
  match v with
  | VList l => Ok l
  | VDict d => Ok (map (fun kv => VStr (fst kv)) d)
  | VStr s => Ok (map (fun c => VStr [c]) s)
  | _ => Raise TypeError
  end.

(** [obj[key]] with a string key.  A dict raises [KeyError] on a missing
    key; an object is read as the subscriptable response model of the
    ollama client, which looks the key up among its fields. *)
Definition subscript (obj : value) (key : pystr) : outcome value :=
  match obj with
  | VDict d | VObj d =>
      match lookup_key key d with
      | Some v => Ok v
      | None => Raise KeyError
      end
  | _ => Raise TypeError
  end.

(** [obj.split(sep)] and [obj.strip()]: methods of [str] only. *)
Definition split_method (obj : value) (sep : N) : outcome (list pystr) :=
  match obj with
  | VStr s => Ok (split sep s)
  | _ => Raise AttributeError
  end.

Definition strip_method (obj : value) : outcome pystr :=
  match obj with
  | VStr s => Ok (strip s)
  | _ => Raise AttributeError
  end.

(** [sep.join(items)]: every item has to be a [str]. *)
Fixpoint strings_of (items : list value) : outcome (list pystr) :=
  match items with
  | [] => Ok []
  | VStr s :: rest => ss ← strings_of rest; Ok (s :: ss)
  | _ :: _ => Raise TypeError
  end.

Definition join_method (sep : pystr) (items : list value) : outcome pystr :=
  ss ← strings_of items; Ok (join sep ss).

(** ** External services *)

(** What the process does to the outside world, in order. *)
Inductive event : Type :=
| Chat (model : pystr) (messages options : value)
| Get (url : pystr) (params headers : value)
| CallsCreate (to from_ : value) (url : pystr)
| Print (line : pystr).

Record response : Type := {
  status_code : Z;
  json : outcome value
}.

Record ollama_module : Type := {
  chat : pystr -> value -> value -> outcome value
}.

Record requests_module : Type := {
  get : pystr -> value -> value -> outcome response
}.

Record twilio_client : Type := {
  calls_create : value -> value -> pystr -> outcome value
}.

(** The process environment.  [ollama] and [Client] are [None] when their
    import failed at module load (tools.py, lines 2-5 and 49-52); the four
    telephony settings come from the configuration module; [requests] is
    the module that [import requests] binds; [repr] is the built-in [str]
    on numbers, containers and objects. *)
Record environment : Type := {
  ollama : option ollama_module;
  Client : option (value -> value -> outcome twilio_client);
  requests : requests_module;
  TWILIO_ACCOUNT_SID : value;
  TWILIO_AUTH_TOKEN : value;
  TWILIO_FROM_NUMBER : value;
  EMERGENCY_CONTACT : value;
  repr : value -> pystr
}.

(** A computation that may raise and that extends the trace of events. *)
Definition M (A : Type) : Type := list event -> outcome A * list event.

#[global] Instance M_ret : MRet M := fun A a tr => (Ok a, tr).
#[global] Instance M_bind : MBind M := fun A B f m tr =>
  match m tr with
  | (Ok a, tr') => f a tr'
  | (Raise e, tr') => (Raise e, tr')
  end.

(** A pure step that may raise. *)
Definition lift {A : Type} (r : outcome A) : M A := fun tr => (r, tr).

(** A call to the outside: the event is recorded, then the answer (or the
    exception) comes back. *)
Definition call {A : Type} (ev : event) (answer : outcome A) : M A :=
  fun tr => (answer, tr ++ [ev]).

Definition print (line : pystr) : M unit := call (Print line) (Ok tt).

(** [try: body except Exception: handler] *)
Definition try_except {A : Type} (body : M A) (handler : exn -> M A) : M A :=
  fun tr =>
    match body tr with
    | (Ok a, tr') => (Ok a, tr')
    | (Raise e, tr') => handler e tr'
    end.

(** How an f-string renders a value. *)
Definition format (env : environment) (v : value) : pystr :=
  match v with
  | VStr s => s
  | VNone => str "None"
  | VBool true => str "True"
  | VBool false => str "False"
  | _ => repr env v
  end.

Definition nl : pystr := [10%N].
Definition quote : pystr := [34%N].

(** ** tools.py *)

Module Tools.

Definition system_prompt : pystr :=
  str "You are Dr. Emily Hartman, a warm and experienced clinical psychologist. " ++ nl ++
  str "    Respond to patients with:" ++ nl ++
  nl ++
  str "    1. Emotional attunement (" ++ quote ++ str "I can sense how difficult this must be..." ++ quote ++ str ")" ++ nl ++
  str "    2. Gentle normalization (" ++ quote ++ str "Many people feel this way when..." ++ quote ++ str ")" ++ nl ++
  str "    3. Practical guidance (" ++ quote ++ str "What sometimes helps is..." ++ quote ++ str ")" ++ nl ++
  str "    4. Strengths-focused support (" ++ quote ++ str "I notice how you're..." ++ quote ++ str ")" ++ nl ++
  nl ++
  str "    Key principles:" ++ nl ++
  str "    - Never use brackets or labels" ++ nl ++
  str "    - Blend elements seamlessly" ++ nl ++
  str "    - Vary sentence structure" ++ nl ++
  str "    - Use natural transitions" ++ nl ++
  str "    - Mirror the user's language level" ++ nl ++
  str "    - Always keep the conversation going by asking open ended questions to dive into the root cause of patients problem" ++ nl ++
  str "    ".

Definition backend_unavailable : pystr :=
  str "I'm having technical difficulties: language model backend is unavailable right now. Please try again later.".

Definition generation_failed : pystr :=
  str "I'm having technical difficulties, but I want you to know your feelings matter. Please try again shortly.".

Definition chat_model : pystr := str "alibayram/medgemma:4b".

Definition chat_messages (prompt : pystr) : value :=
  VList [ VDict [(str "role", VStr (str "system")); (str "content", VStr system_prompt)];
          VDict [(str "role", VStr (str "user")); (str "content", VStr prompt)] ].

Definition chat_options : value :=
  VDict [ (str "num_predict", VNum 350);
          (str "temperature", VNum (7 # 10));
          (str "top_p", VNum (9 # 10)) ].

(** Lines 7-45. *)
Definition query_medgemma (env : environment) (prompt : pystr) : M pystr :=
  match ollama env with
  | None => mret backend_unavailable
  | Some ollama =>
      try_except
        (response ← call (Chat chat_model (chat_messages prompt) chat_options)
                         (chat ollama chat_model (chat_messages prompt) chat_options);
         message ← lift (subscript response (str "message"));
         content ← lift (subscript message (str "content"));
         lift (strip_method content))
        (fun _ => mret generation_failed)
  end.

Definition voice_url : pystr := str "http://demo.twilio.com/docs/voice.xml".

(** Lines 55-69. *)
Definition call_emergency (env : environment) : M value :=
  match Client env with
  | None =>
      _ ← print (str "Warning: Twilio client not available; cannot place emergency call.");
      mret VNone
  | Some Client =>
      try_except
        (client ← lift (Client (TWILIO_ACCOUNT_SID env) (TWILIO_AUTH_TOKEN env));
         call_ ← call (CallsCreate (EMERGENCY_CONTACT env) (TWILIO_FROM_NUMBER env) voice_url)
                      (calls_create client (EMERGENCY_CONTACT env) (TWILIO_FROM_NUMBER env) voice_url);
         mret call_)
        (fun _ =>
           _ ← print (str "Failed to place emergency call (Twilio error)");
           mret VNone)
  end.

End Tools.

(** ** ai_agent.py *)

Module Agent.

(** *** The three tools

    The [tool] decorator hands the functions to the agent loop (and is the
    identity when langchain is missing); what is embedded is the function
    that the tool runs. *)

(** Lines 15-22. *)
Definition ask_mental_health_specialist (env : environment) (query : pystr) : M pystr :=
  Tools.query_medgemma env query.

(** Lines 25-32: the value of [call_emergency()] is dropped and the
    function falls off its end. *)
Definition emergency_call_tool (env : environment) : M value :=
  _ ← Tools.call_emergency env;
  mret VNone.

(** Lines 50-55. *)
Definition queries (location : pystr) : list pystr :=
  [ str "therapist " ++ location;
    str "psychologist " ++ location;
    str "mental health clinic " ++ location;
    str "counseling center " ++ location ].

Definition search_url : pystr := str "https://nominatim.openstreetmap.org/search".

(** Lines 61-67. *)
Definition params (query : pystr) : value :=
  VDict [ (str "q", VStr query);
          (str "format", VStr (str "json"));
          (str "limit", VNum 3);
          (str "addressdetails", VNum 1);
          (str "extratags", VNum 1) ].

Definition headers : value :=
  VDict [ (str "User-Agent", VStr (str "SafeSpace-AI-Therapist/1.0")) ].

(** Lines 81-102: the address of one accepted result. *)
Definition full_address (env : environment) (result : value) : outcome value :=
  address_details ← dict_get result (str "address") (VDict []);
  house_number ← dict_get address_details (str "house_number") (VStr []);
  road ← dict_get address_details (str "road") (VStr []);
  village ← dict_get address_details (str "village") (VStr []);
  town ← dict_get address_details (str "town") village;
  city ← dict_get address_details (str "city") town;
  state ← dict_get address_details (str "state") (VStr []);
  postcode ← dict_get address_details (str "postcode") (VStr []);
  let address_parts := [] in
  let address_parts :=
    if truthy house_number && truthy road
    then address_parts ++ [VStr (format env house_number ++ str " " ++ format env road)]
    else if truthy road then address_parts ++ [road]
    else address_parts in
  let address_parts := if truthy city then address_parts ++ [city] else address_parts in
  let address_parts := if truthy state then address_parts ++ [state] else address_parts in
  let address_parts := if truthy postcode then address_parts ++ [postcode] else address_parts in
  if truthy (VList address_parts)
  then joined ← join_method (str ", ") address_parts; Ok (VStr joined)
  else dict_get result (str "display_name") (VStr (str "Address not available")).

Definition pin : pystr := [128205%N].
Definition telephone : pystr := [128222%N].
Definition world_map : pystr := [128506%N; 65039%N].
Definition bulb : pystr := [128161%N].
Definition bullet : pystr := [8226%N].

Definition phone_line : pystr :=
  telephone ++ str " Phone: Contact facility directly or search online directories" ++ nl.

Definition coordinates_line (env : environment) (lat lon : value) : pystr :=
  world_map ++ str " Coordinates: " ++ format env lat ++ str ", " ++ format env lon ++ nl.

(** Lines 81-114: the entry of one accepted result. *)
Definition format_entry (env : environment) (name : pystr) (result : value) : outcome pystr :=
  full_address ← full_address env result;
  lat ← dict_get result (str "lat") (VStr []);
  lon ← dict_get result (str "lon") (VStr []);
  let entry := str "**" ++ name ++ str "**" ++ nl in
  let entry := entry ++ pin ++ str " Address: " ++ format env full_address ++ nl in
  let entry := entry ++ phone_line in
  let entry := if truthy lat && truthy lon
               then entry ++ coordinates_line env lat lon else entry in
  Ok (entry ++ str "---").

(** Line 77: the filter on the display name. *)
Definition accepted (name : pystr) (seen_names : gset pystr) : bool :=
  truthy (VStr name) && bool_decide (name ∉ seen_names) && (3 <? len name)%nat.

(** Lines 75-119: the loop over the results of one response; it ends at
    the end of the list or at the [break]. *)
Fixpoint scan_results (env : environment) (results : list value)
    (all_results : list pystr) (seen_names : gset pystr)
    : outcome (list pystr * gset pystr) :=
  match results with
  | [] => Ok (all_results, seen_names)
  | result :: rest =>
      display_name ← dict_get result (str "display_name") (VStr []);
      segments ← split_method display_name 44;
      let name := hd [] segments in
      if accepted name seen_names then
        let seen_names := {[name]} ∪ seen_names in
        entry ← format_entry env name result;
        let all_results := all_results ++ [entry] in
        if (5 <=? length all_results)%nat then Ok (all_results, seen_names)
        else scan_results env rest all_results seen_names
      else scan_results env rest all_results seen_names
  end.

(** Lines 60-122: the loop over the queries. *)
Fixpoint run_queries (env : environment) (queries : list pystr)
    (all_results : list pystr) (seen_names : gset pystr)
    : M (list pystr * gset pystr) :=
  match queries with
  | [] => mret (all_results, seen_names)
  | query :: rest =>
      response ← call (Get search_url (params query) headers)
                      (get (requests env) search_url (params query) headers);
      '(all_results, seen_names) ←
        (if (status_code response =? 200)%Z then
           lift (results ← json response;
                 items ← iterate results;
                 scan_results env items all_results seen_names)
         else mret (all_results, seen_names));
      if (5 <=? length all_results)%nat then mret (all_results, seen_names)
      else run_queries env rest all_results seen_names
  end.

Definition header (location : pystr) : pystr :=
  str "Here are mental health professionals and clinics I found near " ++ location ++ str ":" ++ nl ++ nl.

Definition footer : pystr :=
  nl ++ nl ++ bulb ++ str " **Note**: Phone numbers aren't available through public maps. I recommend:" ++ nl ++
  bullet ++ str " Calling the facility directly using the address" ++ nl ++
  bullet ++ str " Searching online directories like Psychology Today or Healthgrades" ++ nl ++
  bullet ++ str " Contacting your local mental health association" ++ nl ++
  bullet ++ str " Using Google Maps or Yelp for additional contact information".

Definition no_listings (location : pystr) : pystr :=
  str "I couldn't find specific therapist listings near " ++ location ++
  str " using OpenStreetMap. Please consider searching for local mental health directories or contacting your local health department for professional referrals.".

Definition services_unavailable (location : pystr) : pystr :=
  str "I'm having trouble accessing location services right now. For immediate help, please contact your local mental health crisis hotline or search for therapists in " ++ location ++
  str " through online directories.".

(** Lines 124-134: what the [try] block returns. *)
Definition listing (location : pystr) (all_results : list pystr) : pystr :=
  if truthy (VList (map VStr all_results))
  then header location ++ join (nl ++ nl) all_results ++ footer
  else no_listings location.

(** Lines 48-134: the [try] block. *)
Definition search (env : environment) (location : pystr) : M pystr :=
  '(all_results, _) ← run_queries env (queries location) [] ∅;
  mret (listing location all_results).

(** Lines 36-137.  [import requests] on line 46 binds the module that the
    environment carries. *)
Definition locate_therapist_tool (env : environment) (location : pystr) : M pystr :=
  try_except (search env location)
             (fun e => mret (services_unavailable location)).

(** *** The parser *)

(** Lines 167-172: the tool part of one step. *)
Definition record_tool (s : value) (tool_called_name : value) : outcome value :=
  tool_data ← dict_get s (str "tools") VNone;
  if truthy tool_data then
    tool_messages ← dict_get tool_data (str "messages") VNone;
    if truthy tool_messages && isinstance_list tool_messages then
      Ok (fold_left (fun _ msg => getattr msg (str "name") (VStr (str "None")))
                    (list_items tool_messages) tool_called_name)
    else Ok tool_called_name
  else Ok tool_called_name.

(** Lines 175-181: the agent part of one step. *)
Definition record_agent (s : value) (final_response : value) : outcome value :=
  agent_data ← dict_get s (str "agent") VNone;
  if truthy agent_data then
    messages ← dict_get agent_data (str "messages") VNone;
    if truthy messages && isinstance_list messages then
      for_each (fun final_response msg =>
                  content ← attr msg (str "content");
                  if truthy content then Ok content else Ok final_response)
               (list_items messages) final_response
    else Ok final_response
  else Ok final_response.

Definition parse_step (st : value * value) (s : value) : outcome (value * value) :=
  tool_called_name ← record_tool s (fst st);
  final_response ← record_agent s (snd st);
  Ok (tool_called_name, final_response).

(** The stream is consumed as the finite sequence of steps it yields. *)
Definition parse_response (stream : list value) : outcome (value * value) :=
  for_each parse_step stream (VStr (str "None"), VNone).

End Agent.

(** ** The fallback decorator (ai_agent.py, lines 7-12) *)

Module Fallback.

(** [tool], defined when langchain cannot be imported; it takes an
    optional function and keyword arguments:
    called on a function it returns the function, called with keyword
    arguments only it returns a decorator that returns its argument. *)
Definition tool {F : Type} (func : option F) (kwargs : list (pystr * value))
    : F + (F -> F) :=
  match func with
  | None => inr (fun f => f)
  | Some func => inl func
  end.

End Fallback.

(** * Specifications

    The notions the properties are stated with, and the environments they
    are evaluated in. *)

Arguments str : simpl never.

(** ** The parser as a fold *)

Module AgentSpec.
Import Agent.

(** The value stored under a key of a step, [None] when there is none. *)
Definition field (key : pystr) (v : value) : value :=
  match v with
  | VDict d => default VNone (lookup_key key d)
  | _ => VNone
  end.

(** A step is tool-tagged (agent-tagged) when it has something under
    ['tools'] (['agent']). *)
Definition tool_tagged (s : value) : bool := truthy (field (str "tools") s).
Definition agent_tagged (s : value) : bool := truthy (field (str "agent") s).

Definition tool_messages (s : value) : list value :=
  list_items (field (str "messages") (field (str "tools") s)).

Definition agent_messages (s : value) : list value :=
  list_items (field (str "messages") (field (str "agent") s)).

(** The name a tool message is seen with. *)
Definition seen_name (msg : value) : value :=
  getattr msg (str "name") (VStr (str "None")).

Definition content (msg : value) : value := getattr msg (str "content") VNone.

(** The tool names seen across the tool-tagged steps, in stream order. *)
Definition tool_names (stream : list value) : list value :=
  flat_map (fun s => map seen_name (tool_messages s)) stream.

(** The truthy contents seen across the agent-tagged steps, in stream
    order. *)
Definition truthy_contents (stream : list value) : list value :=
  flat_map (fun s => filter (fun c => truthy c) (map content (agent_messages s))) stream.

Definition last_tool_name (stream : list value) : value :=
  default (VStr (str "None")) (last (tool_names stream)).

Definition last_content (stream : list value) : value :=
  default VNone (last (truthy_contents stream)).

(** The steps the agent stream is made of: a dict whose ['tools'] and
    ['agent'] entries, when not empty, are dicts, and whose agent messages
    are objects with a [content]. *)
Definition is_dict (v : value) : bool :=
  match v with VDict _ => true | _ => false end.

Definition has_content (msg : value) : bool :=
  match msg with
  | VObj attrs => bool_decide (is_Some (lookup_key (str "content") attrs))
  | _ => false
  end.

Definition well_formed_step (s : value) : bool :=
  is_dict s
  && (negb (tool_tagged s) || is_dict (field (str "tools") s))
  && (negb (agent_tagged s)
      || is_dict (field (str "agent") s) && forallb has_content (agent_messages s)).

Definition well_formed (stream : list value) : bool := forallb well_formed_step stream.

(** The three-step stream of the specification. *)
Definition tool_step (msgs : list value) : value :=
  VDict [(str "tools", VDict [(str "messages", VList msgs)])].
Definition agent_step (msgs : list value) : value :=
  VDict [(str "agent", VDict [(str "messages", VList msgs)])].
Definition tool_message (name : string) : value :=
  VObj [(str "name", VStr (str name))].
Definition agent_message (text : string) : value :=
  VObj [(str "content", VStr (str text))].

Definition three_steps : list value :=
  [ tool_step [tool_message "locate_therapist_tool"];
    agent_step [agent_message "Here are some options"];
    agent_step [agent_message "Final answer"] ].

End AgentSpec.

(** ** Environments used as concrete inputs *)

Module Mock.

(** Nothing installed, nothing reachable. *)
Definition offline : environment := {|
  ollama := None;
  Client := None;
  requests := {| get := fun _ _ _ => Raise (ServiceError "ConnectionError") |};
  TWILIO_ACCOUNT_SID := VStr (str "AC00");
  TWILIO_AUTH_TOKEN := VStr (str "token");
  TWILIO_FROM_NUMBER := VStr (str "+15550100");
  EMERGENCY_CONTACT := VStr (str "+15550199");
  repr := fun _ => str "<object>"
|}.

(** A chat backend that answers every request with [reply]. *)
Definition with_ollama (reply : outcome value) : environment := {|
  ollama := Some {| chat := fun _ _ _ => reply |};
  Client := Client offline;
  requests := requests offline;
  TWILIO_ACCOUNT_SID := TWILIO_ACCOUNT_SID offline;
  TWILIO_AUTH_TOKEN := TWILIO_AUTH_TOKEN offline;
  TWILIO_FROM_NUMBER := TWILIO_FROM_NUMBER offline;
  EMERGENCY_CONTACT := EMERGENCY_CONTACT offline;
  repr := repr offline
|}.

Definition chat_reply (text : pystr) : value :=
  VDict [ (str "model", VStr Tools.chat_model);
          (str "message", VDict [ (str "role", VStr (str "assistant"));
                                  (str "content", VStr text) ]) ].

(** A telephony client class: [construct] is what [Client(sid, token)]
    does. *)
Definition with_twilio (construct : outcome twilio_client) : environment := {|
  ollama := None;
  Client := Some (fun _ _ => construct);
  requests := requests offline;
  TWILIO_ACCOUNT_SID := TWILIO_ACCOUNT_SID offline;
  TWILIO_AUTH_TOKEN := TWILIO_AUTH_TOKEN offline;
  TWILIO_FROM_NUMBER := TWILIO_FROM_NUMBER offline;
  EMERGENCY_CONTACT := EMERGENCY_CONTACT offline;
  repr := repr offline
|}.

Definition call_record : value :=
  VObj [ (str "sid", VStr (str "CA01")); (str "status", VStr (str "queued")) ].

Definition twilio_up : environment :=
  with_twilio (Ok {| calls_create := fun _ _ _ => Ok call_record |}).

Definition twilio_down : environment :=
  with_twilio (Ok {| calls_create := fun _ _ _ => Raise (ServiceError "TwilioRestException") |}).

Definition twilio_misconfigured : environment :=
  with_twilio (Raise (ServiceError "TwilioException")).

(** A geocoding endpoint that answers each query string from a table and
    is unreachable for any other query. *)
Definition lookup_answer (q : pystr) (table : list (pystr * outcome response)) : outcome response :=
  match list_find (fun entry => fst entry = q) table with
  | Some (_, (_, answer)) => answer
  | None => Raise (ServiceError "ConnectionError")
  end.

Definition with_requests (table : list (pystr * outcome response)) : environment := {|
  ollama := None;
  Client := None;
  requests := {| get := fun _ params _ =>
                   match dict_get params (str "q") VNone with
                   | Ok (VStr q) => lookup_answer q table
                   | _ => Raise (ServiceError "ConnectionError")
                   end |};
  TWILIO_ACCOUNT_SID := TWILIO_ACCOUNT_SID offline;
  TWILIO_AUTH_TOKEN := TWILIO_AUTH_TOKEN offline;
  TWILIO_FROM_NUMBER := TWILIO_FROM_NUMBER offline;
  EMERGENCY_CONTACT := EMERGENCY_CONTACT offline;
  repr := repr offline
|}.

Definition found (items : list value) : outcome response :=
  Ok {| status_code := 200; json := Ok (VList items) |}.

Definition failed (status : Z) : outcome response :=
  Ok {| status_code := status; json := Raise (ServiceError "JSONDecodeError") |}.

Definition text_fields (fields : list (string * string)) : list (pystr * value) :=
  map (fun kv => (str (fst kv), VStr (str (snd kv)))) fields.

(** One search result. *)
Definition place (display_name : string) (address : list (string * string))
    (lat lon : string) : value :=
  VDict [ (str "display_name", VStr (str display_name));
          (str "address", VDict (text_fields address));
          (str "lat", VStr (str lat));
          (str "lon", VStr (str lon)) ].

Definition pune : pystr := str "Pune".

Definition hope_mg_road : value :=
  place "Hope Clinic, MG Road, Pune, Maharashtra, 411001, India"
        [("road", "MG Road"); ("city", "Pune"); ("state", "Maharashtra"); ("postcode", "411001")]
        "18.5196" "73.8553".

Definition hope_fc_road : value :=
  place "Hope Clinic, FC Road, Pune, Maharashtra, 411004, India"
        [("house_number", "12"); ("road", "FC Road"); ("city", "Pune")]
        "18.5236" "73.8412".

(** Two results with the same display name for the first query, nothing
    for the other three. *)
Definition same_name_twice : environment :=
  with_requests [ (str "therapist Pune", found [hope_mg_road; hope_fc_road]);
                  (str "psychologist Pune", found []);
                  (str "mental health clinic Pune", found []);
                  (str "counseling center Pune", found []) ].


(** The first query is refused with status 503, the second finds a
    clinic. *)
Definition first_query_refused : environment :=
  with_requests [ (str "therapist Pune", failed 503);
                  (str "psychologist Pune", found [hope_mg_road]);
                  (str "mental health clinic Pune", found []);
                  (str "counseling center Pune", found []) ].

(** Every query is refused. *)
Definition all_refused : environment :=
  with_requests [ (str "therapist Pune", failed 503);
                  (str "psychologist Pune", failed 503);
                  (str "mental health clinic Pune", failed 429);
                  (str "counseling center Pune", failed 500) ].


(** Six clinics for the first query; the endpoint is unreachable for the
    other queries. *)
Definition clinic (name : string) : value :=
  place name [("road", "MG Road"); ("city", "Pune")] "18.5196" "73.8553".

Definition crowded : environment :=
  with_requests [ (str "therapist Pune",
                   found [ clinic "Asha Clinic, Pune"; clinic "Bodhi Centre, Pune";
                           clinic "Chetana Counselling, Pune"; clinic "Disha Clinic, Pune";
                           clinic "Eka Therapy, Pune"; clinic "Frida Clinic, Pune" ]) ].

End Mock.

(** ** The language-model client *)

Module ModelSpec.
Import Tools.

(** The model call succeeded and what it generated is blank. *)
Definition blank_generation (env : environment) (prompt : pystr) : Prop :=
  exists backend response message text,
    ollama env = Some backend
    /\ chat backend chat_model (chat_messages prompt) chat_options = Ok response
    /\ subscript response (str "message") = Ok message
    /\ subscript message (str "content") = Ok (VStr text)
    /\ strip text = [].

(** The claim of the specification at one input: a non-empty string comes
    back. *)
Definition nonempty_reply (env : environment) (prompt : pystr) : Prop :=
  exists s, fst (query_medgemma env prompt []) = Ok s /\ s <> [].

End ModelSpec.

(** ** The emergency call client *)

Module CallSpec.
Import Tools.

Definition is_call (ev : event) : bool :=
  match ev with CallsCreate _ _ _ => true | _ => false end.

(** The call creations among the events of an invocation. *)
Definition calls_placed (evs : list event) : list event := List.filter is_call evs.

Definition emergency_call (env : environment) : event :=
  CallsCreate (EMERGENCY_CONTACT env) (TWILIO_FROM_NUMBER env) voice_url.

End CallSpec.

(** ** The location client *)

Module LocationSpec.
Import Agent.

(** The display name of a raw result: the first comma-delimited segment of
    its display string. *)
Definition display_name (result : value) : pystr :=
  match result with
  | VDict d =>
      match default (VStr []) (lookup_key (str "display_name") d) with
      | VStr s => hd [] (split 44 s)
      | _ => []
      end
  | _ => []
  end.

(** A display name of fewer than 4 characters is not usable. *)
Definition usable (name : pystr) : bool := bool_decide (4 <= len name)%nat.

(** What one query contributes: the items of a 200 response. *)
Definition payload (env : environment) (query : pystr) : list value :=
  match get (requests env) search_url (params query) headers with
  | Ok response =>
      if (status_code response =? 200)%Z then
        match json response ≫= iterate with
        | Ok items => items
        | Raise _ => []
        end
      else []
  | Raise _ => []
  end.

(** The raw results of the four queries, in the order they arrive. *)
Definition raw_results (env : environment) (location : pystr) : list value :=
  flat_map (payload env) (queries location).

(** The results that are the first with their usable display name. *)
Fixpoint first_usable (seen : gset pystr) (results : list value) : list value :=
  match results with
  | [] => []
  | result :: rest =>
      if usable (display_name result) && bool_decide (display_name result ∉ seen)
      then result :: first_usable ({[display_name result]} ∪ seen) rest
      else first_usable seen rest
  end.

(** The names met once [results] are scanned. *)
Fixpoint seen_after (seen : gset pystr) (results : list value) : gset pystr :=
  match results with
  | [] => seen
  | result :: rest =>
      if usable (display_name result) && bool_decide (display_name result ∉ seen)
      then seen_after ({[display_name result]} ∪ seen) rest
      else seen_after seen rest
  end.

(** The results that are listed. *)
Definition listed (env : environment) (location : pystr) : list value :=
  take 5 (first_usable ∅ (raw_results env location)).

(** The entry of a listed result. *)
Definition entry (env : environment) (result : value) : pystr :=
  match format_entry env (display_name result) result with
  | Ok text => text
  | Raise _ => []
  end.

(** The entry of a listed result is what the code formatted. *)
Definition formatted (env : environment) (r : value) : Prop :=
  format_entry env (display_name r) r = Ok (entry env r).

(** A result that the filter drops: its display string is a string and
    its display name has fewer than 4 characters. *)
Definition dropped (result : value) : Prop :=
  exists d s, result = VDict d
              /\ default (VStr []) (lookup_key (str "display_name") d) = VStr s
              /\ usable (hd [] (split 44 s)) = false.

(** A query that is answered, and answered without a usable result: the
    status is not 200, or the payload is a list of dropped results. *)
Definition yields_nothing (env : environment) (query : pystr) : Prop :=
  exists response,
    get (requests env) search_url (params query) headers = Ok response
    /\ ((status_code response =? 200)%Z = false
        \/ exists items, json response = Ok (VList items) /\ Forall dropped items).

(** A query that is answered with a status other than 200. *)
Definition refused (env : environment) (query : pystr) : Prop :=
  exists response,
    get (requests env) search_url (params query) headers = Ok response
    /\ (status_code response =? 200)%Z = false.

(** A query that is answered with a status outside 200-299. *)
Definition non_2xx (env : environment) (query : pystr) : Prop :=
  exists response,
    get (requests env) search_url (params query) headers = Ok response
    /\ ~ (200 <= status_code response < 300)%Z.

(** The two fixed messages of the client. *)
Definition fixed_message (location : pystr) (s : pystr) : Prop :=
  s = services_unavailable location \/ s = no_listings location.

(** The claim of the specification at one input: a non-2xx answer to one of
    the queries makes the tool return a fixed message. *)
Definition failure_reported (env : environment) (location : pystr) : Prop :=
  Exists (non_2xx env) (queries location) ->
  exists s, fst (locate_therapist_tool env location []) = Ok s /\ fixed_message location s.

(** The endpoint as the client sees it: an answer with another status than
    200 counts as an empty list of results. *)
Definition empty_answer : response := {| status_code := 200; json := Ok (VList []) |}.

Definition skipping_refusals (env : environment) : environment := {|
  ollama := ollama env;
  Client := Client env;
  requests := {| get := fun url params headers =>
                   match get (requests env) url params headers with
                   | Ok response =>
                       if (status_code response =? 200)%Z then Ok response
                       else Ok empty_answer
                   | Raise e => Raise e
                   end |};
  TWILIO_ACCOUNT_SID := TWILIO_ACCOUNT_SID env;
  TWILIO_AUTH_TOKEN := TWILIO_AUTH_TOKEN env;
  TWILIO_FROM_NUMBER := TWILIO_FROM_NUMBER env;
  EMERGENCY_CONTACT := EMERGENCY_CONTACT env;
  repr := repr env
|}.

End LocationSpec.

(** ** The composed address *)

Module AddressSpec.
Import Agent.

Definition nonempty (s : pystr) : bool :=
  match s with [] => false | _ => true end.

(** The address sub-object of a result. *)
Definition address_of (result : value) : list (pystr * value) :=
  match result with
  | VDict d =>
      match lookup_key (str "address") d with
      | Some (VDict a) => a
      | _ => []
      end
  | _ => []
  end.

(** The raw display string of a result. *)
Definition display_string (result : value) : pystr :=
  match result with
  | VDict d =>
      match lookup_key (str "display_name") d with
      | Some (VStr s) => s
      | _ => str "Address not available"
      end
  | _ => str "Address not available"
  end.

(** The string stored under a key, empty when there is none. *)
Definition text (key : string) (d : list (pystr * value)) : pystr :=
  match lookup_key (str key) d with
  | Some (VStr s) => s
  | _ => []
  end.

Definition structured_fields : list string :=
  ["house_number"; "road"; "city"; "town"; "village"; "state"; "postcode"].

(** *** The composition as the specification words it *)

(** A field is present when the address holds a non-empty string for it. *)
Definition present (key : string) (a : list (pystr * value)) : option pystr :=
  if nonempty (text key a) then Some (text key a) else None.

(** A field is present when the address has its key. *)
Definition held (key : string) (a : list (pystr * value)) : option pystr :=
  match lookup_key (str key) a with
  | Some _ => Some (text key a)
  | None => None
  end.

Section Claimed.
Variable has : string -> list (pystr * value) -> option pystr.

Definition claimed_parts (a : list (pystr * value)) : list pystr :=
  match has "house_number" a, has "road" a with
  | Some h, Some r => [h ++ str " " ++ r]
  | None, Some r => [r]
  | _, None => []
  end
  ++ match has "city" a, has "town" a, has "village" a with
     | Some c, _, _ => [c]
     | None, Some t, _ => [t]
     | None, None, Some v => [v]
     | None, None, None => []
     end
  ++ option_list (has "state" a)
  ++ option_list (has "postcode" a).

Definition claimed_address (result : value) : pystr :=
  if forallb (fun key => bool_decide (has key (address_of result) = None)) structured_fields
  then display_string result
  else join (str ", ") (claimed_parts (address_of result)).

End Claimed.

(** *** The composition as the code does it *)

Definition street (a : list (pystr * value)) : pystr :=
  if nonempty (text "road" a) then
    if nonempty (text "house_number" a)
    then text "house_number" a ++ str " " ++ text "road" a
    else text "road" a
  else [].

(** The locality is read from the first key that the address has, among
    city, town and village. *)
Definition locality (a : list (pystr * value)) : pystr :=
  match lookup_key (str "city") a with
  | Some _ => text "city" a
  | None =>
      match lookup_key (str "town") a with
      | Some _ => text "town" a
      | None => text "village" a
      end
  end.

Definition composed_parts (a : list (pystr * value)) : list pystr :=
  List.filter nonempty [street a; locality a; text "state" a; text "postcode" a].

Definition composed_address (result : value) : pystr :=
  match composed_parts (address_of result) with
  | [] => display_string result
  | parts => join (str ", ") parts
  end.

(** The coordinates line is there when both coordinates are non-empty. *)
Definition coordinates (env : environment) (result : value) : pystr :=
  match result with
  | VDict d =>
      if nonempty (text "lat" d) && nonempty (text "lon" d)
      then coordinates_line env (VStr (text "lat" d)) (VStr (text "lon" d))
      else []
  | _ => []
  end.

Definition composed_entry (env : environment) (name : pystr) (result : value) : pystr :=
  str "**" ++ name ++ str "**" ++ nl
  ++ pin ++ str " Address: " ++ composed_address result ++ nl
  ++ phone_line
  ++ coordinates env result
  ++ str "---".

(** Results as the endpoint documents them: an object whose display
    string, coordinates and address fields are strings. *)
Definition is_text (o : option value) : bool :=
  match o with
  | None | Some (VStr _) => true
  | Some _ => false
  end.

Definition textual (result : value) : bool :=
  match result with
  | VDict d =>
      is_text (lookup_key (str "display_name") d)
      && is_text (lookup_key (str "lat") d)
      && is_text (lookup_key (str "lon") d)
      && match lookup_key (str "address") d with
         | None => true
         | Some (VDict a) =>
             forallb (fun key => is_text (lookup_key (str key) a)) structured_fields
         | Some _ => false
         end
  | _ => false
  end.

End AddressSpec.

Module MockAddress.

(** A result with a road, a town and a [city] key that is empty. *)
Definition empty_city : value :=
  Mock.place "Hope Clinic, Main Street, Springfield"
             [("road", "Main Street"); ("city", ""); ("town", "Springfield")]
             "39.78" "-89.65".

(** A result with a house number and nothing else. *)
Definition lone_house_number : value :=
  Mock.place "Hope Clinic, 12, Springfield" [("house_number", "12")] "" "-89.65".

End MockAddress.

(** ** Requests, replies and logs *)

Module TraceSpec.
Import Agent.

(** The request that one query sends. *)
Definition request (query : pystr) : event :=
  Get search_url (params query) headers.

(** A query whose request is answered with something the client can
    scan: any status other than 200, or a payload that can be iterated. *)
Definition answered (env : environment) (query : pystr) : Prop :=
  exists response,
    get (requests env) search_url (params query) headers = Ok response
    /\ ((status_code response =? 200)%Z = true ->
        exists results items, json response = Ok results /\ iterate results = Ok items).

(** A query that is answered as the endpoint documents: a status other
    than 200, or a list of results whose fields are strings. *)
Definition well_answered (env : environment) (query : pystr) : Prop :=
  exists response,
    get (requests env) search_url (params query) headers = Ok response
    /\ ((status_code response =? 200)%Z = false
        \/ exists items, json response = Ok (VList items)
                         /\ Forall (fun r => AddressSpec.textual r = true) items).

(** A string without whitespace at either end. *)
Definition trimmed (s : pystr) : Prop :=
  (forall c, head s = Some c -> isspace c = false)
  /\ (forall c, last s = Some c -> isspace c = false).

Definition is_print (ev : event) : bool :=
  match ev with Print _ => true | _ => false end.

(** The lines printed among the events of an invocation. *)
Definition printed (evs : list event) : list event := List.filter is_print evs.

End TraceSpec.

(** * Properties *)

(** ** The error monad *)

Lemma bind_Ok {A B : Type} (m : outcome A) (f : A -> outcome B) (b : B) :
  m ≫= f = Ok b -> exists a, m = Ok a /\ f a = Ok b.
Proof. destruct m as [a|e]; simpl; [eauto | discriminate]. Qed.

Lemma default_last_cons {A : Type} (d x : A) (l : list A) :
  default d (last (x :: l)) = default x (last l).
Proof. rewrite last_cons. destruct (last l); reflexivity. Qed.

Lemma default_last_app {A : Type} (d : A) (l1 l2 : list A) :
  default d (last (l1 ++ l2)) = default (default d (last l1)) (last l2).
Proof. rewrite last_app. destruct (last l2); reflexivity. Qed.

(** ** The parser *)

Section ParserProofs.
Import Agent AgentSpec.

Lemma dict_get_field (s : value) (key : pystr) (v : value) :
  dict_get s key VNone = Ok v -> v = field key s.
Proof. destruct s; simpl; try discriminate; [congruence | destruct lookup_key; discriminate]. Qed.

Lemma truthy_list_items (v : value) :
  truthy v && isinstance_list v = false -> list_items v = [].
Proof.
  destruct v as [| | | |l| |]; try reflexivity.
  destruct l; [reflexivity | simpl; discriminate].
Qed.

Lemma field_falsy (key : pystr) (v : value) :
  truthy v = false -> field key v = VNone.
Proof. destruct v as [| | | | |d|]; try reflexivity. destruct d; [reflexivity | discriminate]. Qed.

Lemma fold_overwrite {A B : Type} (g : B -> A) (xs : list B) (a : A) :
  fold_left (fun _ x => g x) xs a = default a (last (map g xs)).
Proof.
  revert a. induction xs as [|x xs IH]; intros a; [reflexivity|].
  simpl fold_left. rewrite IH. simpl map. by rewrite default_last_cons.
Qed.

Lemma record_tool_spec (s : value) (t t' : value) :
  record_tool s t = Ok t' ->
  t' = default t (last (map seen_name (tool_messages s))).
Proof.
  unfold record_tool, tool_messages. intros H.
  apply bind_Ok in H as (tool_data & Hd & H). apply dict_get_field in Hd. subst.
  destruct (truthy (field (str "tools") s)) eqn:Ht.
  - apply bind_Ok in H as (tm & Hm & H). apply dict_get_field in Hm. subst.
    destruct (truthy _ && isinstance_list _) eqn:Hl.
    + injection H as <-. apply fold_overwrite.
    + injection H as <-. by rewrite truthy_list_items.
  - injection H as <-. by rewrite (field_falsy _ _ Ht).
Qed.

Lemma agent_loop_spec (msgs : list value) (f f' : value) :
  for_each (fun final_response msg =>
              content ← attr msg (str "content");
              if truthy content then Ok content else Ok final_response) msgs f = Ok f' ->
  f' = default f (last (filter (fun c => truthy c) (map content msgs))).
Proof.
  revert f. induction msgs as [|msg msgs IH]; intros f H; simpl in H.
  - by injection H.
  - apply bind_Ok in H as (f1 & H1 & H). apply IH in H. subst f'.
    apply bind_Ok in H1 as (c & Hc & H1).
    assert (content msg = c) as Hcm.
    { unfold content, attr, getattr in *. destruct msg; try discriminate.
      destruct lookup_key; [by injection Hc | discriminate]. }
    simpl map. rewrite filter_cons, Hcm.
    destruct (truthy c) eqn:Ht; injection H1 as <-.
    + rewrite decide_True by done. by rewrite default_last_cons.
    + rewrite decide_False by (intros []). reflexivity.
Qed.

Lemma record_agent_spec (s : value) (f f' : value) :
  record_agent s f = Ok f' ->
  f' = default f (last (filter (fun c => truthy c) (map content (agent_messages s)))).
Proof.
  unfold record_agent, agent_messages. intros H.
  apply bind_Ok in H as (agent_data & Hd & H). apply dict_get_field in Hd. subst.
  destruct (truthy (field (str "agent") s)) eqn:Ht.
  - apply bind_Ok in H as (ms & Hm & H). apply dict_get_field in Hm. subst.
    destruct (truthy _ && isinstance_list _) eqn:Hl.
    + by apply agent_loop_spec.
    + injection H as <-. by rewrite truthy_list_items.
  - injection H as <-. by rewrite (field_falsy _ _ Ht).
Qed.

Lemma parse_loop_spec (stream : list value) (t f : value) (r : value * value) :
  for_each parse_step stream (t, f) = Ok r ->
  r = (default t (last (tool_names stream)), default f (last (truthy_contents stream))).
Proof.
  revert t f. induction stream as [|s stream IH]; intros t f H; simpl in H.
  - by injection H.
  - apply bind_Ok in H as ([t1 f1] & H1 & H). apply IH in H. subst r.
    unfold parse_step in H1. simpl in H1.
    apply bind_Ok in H1 as (t2 & Ht & H1). apply bind_Ok in H1 as (f2 & Hf & H1).
    injection H1 as -> ->.
    apply record_tool_spec in Ht. apply record_agent_spec in Hf. subst.
    unfold tool_names, truthy_contents. simpl flat_map.
    by rewrite !default_last_app.
Qed.

Lemma well_formed_step_dict (s : value) (key : pystr) :
  is_dict s = true -> dict_get s key VNone = Ok (field key s).
Proof. destruct s; simpl; congruence. Qed.

Lemma record_tool_total (s t : value) :
  well_formed_step s = true -> exists t', record_tool s t = Ok t'.
Proof.
  unfold well_formed_step, tool_tagged. intros H.
  apply andb_prop in H as [H _]. apply andb_prop in H as [Hs Ht].
  unfold record_tool. rewrite (well_formed_step_dict _ _ Hs). simpl.
  destruct (truthy (field (str "tools") s)); [|eauto].
  simpl in Ht. rewrite (well_formed_step_dict _ _ Ht). simpl.
  destruct (truthy _ && isinstance_list _); eauto.
Qed.

Lemma agent_loop_total (msgs : list value) (f : value) :
  forallb has_content msgs = true ->
  exists f', for_each (fun final_response msg =>
                content ← attr msg (str "content");
                if truthy content then Ok content else Ok final_response) msgs f = Ok f'.
Proof.
  revert f. induction msgs as [|msg msgs IH]; intros f H; simpl in *; [eauto|].
  apply andb_prop in H as [Hm H].
  destruct msg as [| | | | | |attrs]; try discriminate. simpl in *.
  apply bool_decide_eq_true in Hm as [c Hc]. rewrite Hc. simpl.
  destruct (truthy c); simpl; apply IH, H.
Qed.

Lemma record_agent_total (s f : value) :
  well_formed_step s = true -> exists f', record_agent s f = Ok f'.
Proof.
  unfold well_formed_step, agent_tagged. intros H.
  apply andb_prop in H as [H Ha]. apply andb_prop in H as [Hs _].
  unfold record_agent. rewrite (well_formed_step_dict _ _ Hs). simpl.
  destruct (truthy (field (str "agent") s)); [|eauto].
  simpl in Ha. apply andb_prop in Ha as [Hd Hm].
  rewrite (well_formed_step_dict _ _ Hd). simpl.
  destruct (truthy _ && isinstance_list _) eqn:Hl; [|eauto].
  apply agent_loop_total. exact Hm.
Qed.

Lemma parse_loop_total (stream : list value) (st : value * value) :
  well_formed stream = true -> exists r, for_each parse_step stream st = Ok r.
Proof.
  revert st. induction stream as [|s stream IH]; intros st H; simpl in *; [eauto|].
  apply andb_prop in H as [Hs H].
  destruct (record_tool_total s (fst st) Hs) as [t' Ht].
  destruct (record_agent_total s (snd st) Hs) as [f' Hf].
  unfold parse_step. rewrite Ht. simpl. rewrite Hf. simpl. apply IH, H.
Qed.

Lemma parse_response_spec (stream : list value) (r : value * value) :
  parse_response stream = Ok r -> r = (last_tool_name stream, last_content stream).
Proof. apply parse_loop_spec. Qed.

Lemma parse_response_total (stream : list value) :
  well_formed stream = true ->
  parse_response stream = Ok (last_tool_name stream, last_content stream).
Proof.
  intros H. destruct (parse_loop_total stream (VStr (str "None"), VNone) H) as [r Hr].
  unfold parse_response. rewrite Hr. f_equal. by apply parse_response_spec.
Qed.

Lemma untagged_no_names (stream : list value) :
  Forall (fun s => tool_tagged s = false) stream -> tool_names stream = [].
Proof.
  induction 1 as [|s stream Hs _ IH]; [reflexivity|].
  unfold tool_names in *. simpl. rewrite IH.
  unfold tool_messages. unfold tool_tagged in Hs. by rewrite (field_falsy _ _ Hs).
Qed.

Lemma falsy_no_contents (stream : list value) :
  Forall (fun s => Forall (fun msg => truthy (content msg) = false) (agent_messages s)) stream ->
  truthy_contents stream = [].
Proof.
  induction 1 as [|s stream Hs _ IH]; [reflexivity|].
  unfold truthy_contents in *. simpl. rewrite IH, app_nil_r.
  induction Hs as [|msg msgs Hm _ IHm]; [reflexivity|].
  simpl map. rewrite filter_cons, decide_False; [exact IHm | simpl; rewrite Hm; intros []].
Qed.

(** C1: [parse_response] folds the stream into the last tool name seen in
    the tool-tagged steps (the sentinel ["None"] when no step is
    tool-tagged) and the last truthy content seen in the agent-tagged steps;
    on the three-step stream of the specification it returns
    [("locate_therapist_tool", "Final answer")]. *)
Theorem parse_response_fold :
  (forall stream, well_formed stream = true ->
     parse_response stream = Ok (last_tool_name stream, last_content stream))
  /\ (forall stream r, parse_response stream = Ok r ->
        r = (last_tool_name stream, last_content stream))
  /\ (forall stream, well_formed stream = true ->
        Forall (fun s => tool_tagged s = false) stream ->
        parse_response stream = Ok (VStr (str "None"), last_content stream))
  /\ parse_response three_steps
     = Ok (VStr (str "locate_therapist_tool"), VStr (str "Final answer")).
Proof.
  split; [exact parse_response_total|].
  split; [exact parse_response_spec|].
  split; [|reflexivity].
  intros stream Hwf H. rewrite (parse_response_total _ Hwf).
  unfold last_tool_name. by rewrite untagged_no_names.
Qed.

Lemma parse_response_fold_witness :
  well_formed three_steps = true
  /\ parse_response three_steps = Ok (last_tool_name three_steps, last_content three_steps)
  /\ parse_response (tl three_steps)
     = Ok (VStr (str "None"), last_content (tl three_steps)).
Proof.
  split; [reflexivity|]. split.
  - apply (proj1 parse_response_fold). reflexivity.
  - apply (proj1 (proj2 (proj2 parse_response_fold))); [reflexivity|].
    repeat constructor.
Defined.

(** C8: every message of a tool step overwrites the recorded name with
    [getattr(msg, 'name', 'None')], so a stream can contain a tool-tagged
    step with messages and still be parsed to the tool name ["None"]: a
    message without a name after a named one resets it. *)
Theorem tool_step_resets_name :
  (forall msgs msg t, record_tool (tool_step (msgs ++ [msg])) t = Ok (seen_name msg))
  /\ exists stream,
       Exists (fun s => tool_tagged s = true /\ tool_messages s <> []) stream
       /\ In (tool_message "locate_therapist_tool") (flat_map tool_messages stream)
       /\ parse_response stream = Ok (VStr (str "None"), VNone).
Proof.
  split.
  - intros msgs msg t. unfold record_tool, tool_step. simpl.
    rewrite length_app, Nat.add_comm. simpl.
    rewrite fold_overwrite, map_app, last_app. reflexivity.
  - exists [tool_step [tool_message "locate_therapist_tool"; VObj []]].
    split; [|split].
    + constructor. split; [reflexivity | discriminate].
    + left. reflexivity.
    + reflexivity.
Qed.

(** C9: a stream none of whose agent messages has a truthy content is
    parsed to the final response [None], and an agent step whose contents
    are all empty leaves the recorded final response as it was. *)
Theorem falsy_content_leaves_response :
  (forall stream, well_formed stream = true ->
     Forall (fun s => Forall (fun msg => truthy (content msg) = false) (agent_messages s)) stream ->
     parse_response stream = Ok (last_tool_name stream, VNone))
  /\ (forall s f, well_formed_step s = true ->
        Forall (fun msg => truthy (content msg) = false) (agent_messages s) ->
        record_agent s f = Ok f)
  /\ parse_response [agent_step [agent_message ""]; agent_step [agent_message ""; agent_message ""]]
     = Ok (VStr (str "None"), VNone)
  /\ parse_response [agent_step [agent_message "Final answer"]; agent_step [agent_message ""]]
     = Ok (VStr (str "None"), VStr (str "Final answer")).
Proof.
  split; [|split; [|split; reflexivity]].
  - intros stream Hwf H. rewrite (parse_response_total _ Hwf).
    unfold last_content. by rewrite falsy_no_contents.
  - intros s f Hwf H. destruct (record_agent_total s f Hwf) as [f' Hf].
    rewrite Hf. f_equal. apply record_agent_spec in Hf. subst f'.
    pose proof (falsy_no_contents [s] (Forall_cons_2 _ _ _ H (Forall_nil_2 _))) as Hn.
    unfold truthy_contents in Hn. simpl in Hn. rewrite app_nil_r in Hn. by rewrite Hn.
Qed.

Lemma falsy_content_leaves_response_witness :
  parse_response [agent_step [agent_message ""]; tool_step [VObj []]]
  = Ok (last_tool_name [agent_step [agent_message ""]; tool_step [VObj []]], VNone)
  /\ record_agent (agent_step [agent_message ""]) (VStr (str "Final answer"))
     = Ok (VStr (str "Final answer")).
Proof.
  split.
  - apply (proj1 falsy_content_leaves_response); [reflexivity|].
    repeat constructor.
  - apply (proj1 (proj2 falsy_content_leaves_response)); [reflexivity|].
    repeat constructor.
Defined.

End ParserProofs.

(** ** The language-model client *)

Section LanguageModel.
Import Tools ModelSpec.

Lemma strip_method_VStr (v : value) (s : pystr) :
  strip_method v = Ok s -> exists text, v = VStr text /\ s = strip text.
Proof. destruct v; simpl; try discriminate. intros [= <-]. eauto. Qed.

(** C3, as stated, fails: a backend that generates only spaces makes
    [query_medgemma] return the empty string. *)
Lemma blank_reply_is_empty :
  fst (query_medgemma (Mock.with_ollama (Ok (Mock.chat_reply (str "  ")))) (str "I feel low") [])
  = Ok []
  /\ ~ nonempty_reply (Mock.with_ollama (Ok (Mock.chat_reply (str "  ")))) (str "I feel low").
Proof.
  split; [reflexivity|].
  intros (s & H & Hs). vm_compute in H. congruence.
Qed.

Lemma query_medgemma_cases (env : environment) (prompt : pystr) (tr : list event) :
  exists s evs,
    query_medgemma env prompt tr = (Ok s, tr ++ evs)
    /\ (length evs <= 1)%nat
    /\ (ollama env = None -> s = backend_unavailable /\ evs = [])
    /\ (s = [] -> blank_generation env prompt).
Proof.
  unfold query_medgemma, blank_generation.
  destruct (ollama env) as [backend|] eqn:Hb.
  - unfold try_except, mbind, M_bind, call, lift, mret, M_ret.
    destruct (chat backend _ _ _) as [response|e] eqn:Hc.
    + destruct (subscript response _) as [message|e] eqn:Hm.
      * destruct (subscript message _) as [content|e] eqn:Hn.
        -- destruct (strip_method content) as [s|e] eqn:Hs.
           ++ exists s, [Chat chat_model (chat_messages prompt) chat_options].
              repeat split; [simpl; lia | discriminate | discriminate |].
              intros ->. apply strip_method_VStr in Hs as (text & -> & Hs).
              exists backend, response, message, text. eauto.
           ++ eexists _, [_]. repeat split; [simpl; lia | discriminate..].
        -- eexists _, [_]. repeat split; [simpl; lia | discriminate..].
      * eexists _, [_]. repeat split; [simpl; lia | discriminate..].
    + eexists _, [_]. repeat split; [simpl; lia | discriminate..].
  - exists backend_unavailable, []. rewrite app_nil_r.
    repeat split; [simpl; lia | discriminate].
Qed.

Lemma query_medgemma_generated (env : environment) (backend : ollama_module)
    (prompt : pystr) (tr : list event) (response message : value) (text : pystr) :
  ollama env = Some backend ->
  chat backend chat_model (chat_messages prompt) chat_options = Ok response ->
  subscript response (str "message") = Ok message ->
  subscript message (str "content") = Ok (VStr text) ->
  query_medgemma env prompt tr
  = (Ok (strip text), tr ++ [Chat chat_model (chat_messages prompt) chat_options]).
Proof.
  intros Hb Hc Hm Hn. unfold query_medgemma. rewrite Hb.
  unfold try_except, mbind, M_bind, call, lift, mret, M_ret.
  rewrite Hc, Hm, Hn. reflexivity.
Qed.

(** C3, amended: [query_medgemma] never raises and returns a string, after
    at most one model call; without a backend it returns the fixed
    backend-unavailable string and calls nothing; a string generated under
    ['message']['content'] comes back stripped, so the returned string is
    empty exactly when the model call succeeded with a content that is
    blank once stripped. *)
Theorem query_medgemma_reply (env : environment) (prompt : pystr) (tr : list event) :
  exists s evs,
    query_medgemma env prompt tr = (Ok s, tr ++ evs)
    /\ (length evs <= 1)%nat
    /\ (ollama env = None -> s = backend_unavailable /\ evs = [])
    /\ (s = [] -> blank_generation env prompt)
    /\ (blank_generation env prompt -> s = [])
    /\ (forall backend response message text,
          ollama env = Some backend ->
          chat backend chat_model (chat_messages prompt) chat_options = Ok response ->
          subscript response (str "message") = Ok message ->
          subscript message (str "content") = Ok (VStr text) ->
          s = strip text).
Proof.
  destruct (query_medgemma_cases env prompt tr) as (s & evs & E & Hlen & Hnone & Hblank).
  assert (forall backend response message text,
            ollama env = Some backend ->
            chat backend chat_model (chat_messages prompt) chat_options = Ok response ->
            subscript response (str "message") = Ok message ->
            subscript message (str "content") = Ok (VStr text) ->
            s = strip text) as Hgen.
  { intros backend response message text Hb Hc Hm Hn.
    pose proof (query_medgemma_generated env backend prompt tr _ _ _ Hb Hc Hm Hn) as Hq.
    rewrite E in Hq. by injection Hq. }
  exists s, evs. repeat split; try assumption; try (by apply Hnone).
  intros (backend & response & message & text & Hb & Hc & Hm & Hn & Hstrip).
  rewrite <- Hstrip. by eapply Hgen.
Qed.

Lemma query_medgemma_reply_witness :
  (exists s evs,
     query_medgemma Mock.offline (str "I feel low") [] = (Ok s, [] ++ evs)
     /\ s = backend_unavailable /\ evs = [])
  /\ blank_generation (Mock.with_ollama (Ok (Mock.chat_reply (str "  ")))) (str "I feel low")
  /\ (exists s evs,
        query_medgemma (Mock.with_ollama (Ok (Mock.chat_reply (str "  "))))
                       (str "I feel low") [] = (Ok s, [] ++ evs)
        /\ s = [])
  /\ (exists s evs,
        query_medgemma (Mock.with_ollama (Ok (Mock.chat_reply (str "  You are not alone.  "))))
                       (str "I feel low") [] = (Ok s, [] ++ evs)
        /\ s = strip (str "  You are not alone.  ")).
Proof.
  split; [|split; [|split]].
  - destruct (query_medgemma_reply Mock.offline (str "I feel low") [])
      as (s & evs & H & _ & Hnone & _).
    exists s, evs. split; [exact H | apply Hnone; reflexivity].
  - destruct (query_medgemma_reply (Mock.with_ollama (Ok (Mock.chat_reply (str "  "))))
                (str "I feel low") []) as (s & evs & H & _ & _ & Hblank & _).
    apply Hblank. vm_compute in H. congruence.
  - destruct (query_medgemma_reply (Mock.with_ollama (Ok (Mock.chat_reply (str "  "))))
                (str "I feel low") []) as (s & evs & H & _ & _ & _ & Hempty & _).
    exists s, evs. split; [exact H|]. apply Hempty.
    eexists _, _, _, _. repeat split; reflexivity.
  - destruct (query_medgemma_reply
                (Mock.with_ollama (Ok (Mock.chat_reply (str "  You are not alone.  "))))
                (str "I feel low") []) as (s & evs & H & _ & _ & _ & _ & Hgen).
    exists s, evs. split; [exact H|]. eapply Hgen; reflexivity.
Defined.

End LanguageModel.

(** ** The emergency call client *)

Section EmergencyCall.
Import Tools CallSpec.

Local Ltac settle_calls :=
  repeat split; simpl; try lia; try discriminate;
  intros; simplify_eq; try congruence; try reflexivity.

Lemma call_emergency_returns (env : environment) (tr : list event) :
  exists v, call_emergency env tr = (Ok v, snd (call_emergency env tr)).
Proof.
  unfold call_emergency. destruct (Client env) as [cls|].
  - unfold try_except, mbind, M_bind, call, lift, mret, M_ret, print, call.
    destruct (cls _ _) as [client|e]; [|eauto].
    destruct (calls_create client _ _ _) as [record|e]; eauto.
  - unfold mbind, M_bind, print, call, mret, M_ret. eauto.
Qed.

(** C6: one invocation of [call_emergency] creates at most one call and
    never raises; it returns [None] when the Twilio client class is
    missing, when building the client raises (nothing is created then) and
    when creating the call raises (the one attempt is not repeated). *)
Theorem call_emergency_single_attempt (env : environment) (tr : list event) :
  exists v evs,
    call_emergency env tr = (Ok v, tr ++ evs)
    /\ (length (calls_placed evs) <= 1)%nat
    /\ (Client env = None -> v = VNone /\ calls_placed evs = [])
    /\ (forall cls e, Client env = Some cls ->
          cls (TWILIO_ACCOUNT_SID env) (TWILIO_AUTH_TOKEN env) = Raise e ->
          v = VNone /\ calls_placed evs = [])
    /\ (forall cls client e, Client env = Some cls ->
          cls (TWILIO_ACCOUNT_SID env) (TWILIO_AUTH_TOKEN env) = Ok client ->
          calls_create client (EMERGENCY_CONTACT env) (TWILIO_FROM_NUMBER env) voice_url = Raise e ->
          v = VNone /\ calls_placed evs = [emergency_call env]).
Proof.
  unfold call_emergency, emergency_call.
  destruct (Client env) as [cls|] eqn:Hc.
  - unfold try_except, mbind, M_bind, call, lift, mret, M_ret, print, call.
    destruct (cls _ _) as [client|e] eqn:Hcl.
    + destruct (calls_create client _ _ _) as [record|e] eqn:Hcr.
      * eexists record, [_]. settle_calls.
      * eexists VNone, [_; _]. rewrite <- app_assoc. settle_calls.
    + eexists VNone, [_]. settle_calls.
  - unfold mbind, M_bind, print, call, mret, M_ret.
    eexists VNone, [_]. settle_calls.
Qed.

Lemma call_emergency_single_attempt_witness :
  (exists v evs, call_emergency Mock.offline [] = (Ok v, [] ++ evs)
                 /\ v = VNone /\ calls_placed evs = [])
  /\ (exists v evs, call_emergency Mock.twilio_misconfigured [] = (Ok v, [] ++ evs)
                    /\ v = VNone /\ calls_placed evs = [])
  /\ (exists v evs, call_emergency Mock.twilio_down [] = (Ok v, [] ++ evs)
                    /\ v = VNone /\ calls_placed evs = [emergency_call Mock.twilio_down]).
Proof.
  split; [|split].
  - destruct (call_emergency_single_attempt Mock.offline []) as (v & evs & H & _ & H1 & _).
    exists v, evs. split; [exact H | apply H1; reflexivity].
  - destruct (call_emergency_single_attempt Mock.twilio_misconfigured [])
      as (v & evs & H & _ & _ & H2 & _).
    exists v, evs. split; [exact H | eapply H2; reflexivity].
  - destruct (call_emergency_single_attempt Mock.twilio_down [])
      as (v & evs & H & _ & _ & _ & H3).
    exists v, evs. split; [exact H | eapply H3; reflexivity].
Defined.

(** C10: [emergency_call_tool] returns [None] whatever [call_emergency]
    returned, after the same events: a placed call and a failed one give
    the agent loop the same value. *)
Theorem emergency_call_tool_returns_None :
  (forall env tr,
     Agent.emergency_call_tool env tr = (Ok VNone, snd (call_emergency env tr)))
  /\ fst (call_emergency Mock.twilio_up []) = Ok Mock.call_record
  /\ fst (call_emergency Mock.twilio_down []) = Ok VNone
  /\ fst (Agent.emergency_call_tool Mock.twilio_up []) = Ok VNone
  /\ fst (Agent.emergency_call_tool Mock.twilio_down []) = Ok VNone.
Proof.
  split; [|repeat split].
  intros env tr. unfold Agent.emergency_call_tool, mbind, M_bind.
  destruct (call_emergency_returns env tr) as [v Hv].
  destruct (call_emergency env tr) as [[v'|e] tr']; [reflexivity | discriminate].
Qed.

End EmergencyCall.

(** ** The listing *)

Section ListingProofs.
Import Agent LocationSpec.
Local Arguments Nat.leb : simpl never.

Lemma accepted_usable (name : pystr) (seen : gset pystr) :
  accepted name seen = usable name && bool_decide (name ∉ seen).
Proof.
  unfold accepted, usable, len. simpl.
  destruct (bool_decide (name ∉ seen)); rewrite ?andb_true_r, ?andb_false_r; [|reflexivity].
  destruct name as [|c name]; [reflexivity|]. simpl bool_decide at 1. simpl negb.
  rewrite andb_true_l.
  destruct (Nat.ltb_spec 3 (length (c :: name)));
    [rewrite bool_decide_eq_true_2 | rewrite bool_decide_eq_false_2]; simpl in *; (reflexivity || lia).
Qed.

Lemma scanned_name (result dn : value) (segments : list pystr) :
  dict_get result (str "display_name") (VStr []) = Ok dn ->
  split_method dn 44 = Ok segments ->
  hd [] segments = display_name result.
Proof.
  unfold display_name. destruct result; simpl; try discriminate.
  - intros [= <-]. destruct (default _ _); simpl; try discriminate. by intros [= <-].
  - destruct lookup_key; discriminate.
Qed.

Lemma first_usable_app (seen : gset pystr) (l1 l2 : list value) :
  first_usable seen (l1 ++ l2) = first_usable seen l1 ++ first_usable (seen_after seen l1) l2.
Proof.
  revert seen. induction l1 as [|r l1 IH]; intros seen; simpl; [reflexivity|].
  destruct (usable _ && bool_decide _); simpl; by rewrite IH.
Qed.

Lemma seen_after_mono (seen : gset pystr) (results : list value) (name : pystr) :
  name ∈ seen -> name ∈ seen_after seen results.
Proof.
  revert seen. induction results as [|r results IH]; intros seen H; simpl; [exact H|].
  destruct (usable _ && bool_decide _); apply IH; set_solver.
Qed.

Lemma seen_after_elem (seen : gset pystr) (results : list value) (r : value) :
  In r results -> usable (display_name r) = true ->
  display_name r ∈ seen_after seen results.
Proof.
  revert seen. induction results as [|r' results IH]; intros seen Hin Hu; [destruct Hin|].
  destruct Hin as [<-|Hin]; simpl.
  - rewrite Hu. simpl. destruct (bool_decide _) eqn:Hd.
    + apply seen_after_mono. set_solver.
    + apply seen_after_mono. apply bool_decide_eq_false in Hd.
      destruct (decide (display_name r' ∈ seen)); [assumption | contradiction].
  - destruct (usable _ && bool_decide _); by apply IH.
Qed.

Lemma first_usable_names (seen : gset pystr) (results : list value) :
  NoDup (map display_name (first_usable seen results))
  /\ Forall (fun r => usable (display_name r) = true /\ display_name r ∉ seen)
            (first_usable seen results).
Proof.
  revert seen. induction results as [|r results IH]; intros seen; simpl.
  - split; constructor.
  - destruct (usable (display_name r)) eqn:Hu; simpl; [|apply IH].
    destruct (bool_decide (display_name r ∉ seen)) eqn:Hs; [|apply IH].
    apply bool_decide_eq_true in Hs.
    destruct (IH ({[display_name r]} ∪ seen)) as [Hnd Hall]. split.
    + simpl. constructor; [|exact Hnd].
      rewrite list_elem_of_In, in_map_iff. intros (r' & Heq & Hin).
      rewrite Forall_forall in Hall. apply list_elem_of_In in Hin.
      destruct (Hall r' Hin) as [_ Hn]. apply Hn. rewrite Heq. set_solver.
    + constructor; [by split|].
      eapply Forall_impl; [exact Hall|]. simpl. intros r' [? Hn]. split; [assumption|set_solver].
Qed.

(** A result whose display name occurred earlier yields nothing. *)
Lemma first_usable_later_duplicate (seen : gset pystr) (l1 l2 : list value) (r : value) :
  In (display_name r) (map display_name l1) ->
  first_usable seen (l1 ++ r :: l2) = first_usable seen (l1 ++ l2).
Proof.
  intros Hin. rewrite !first_usable_app. f_equal. simpl.
  apply in_map_iff in Hin as (r' & Heq & Hin).
  destruct (usable (display_name r)) eqn:Hu; [|reflexivity]. simpl.
  rewrite bool_decide_eq_false_2; [reflexivity|].
  intros Hn. apply Hn. rewrite <- Heq. apply seen_after_elem; [assumption|]. by rewrite Heq.
Qed.

Lemma scan_results_spec (env : environment) (items : list value)
    (acc acc' : list pystr) (seen seen' : gset pystr) :
  scan_results env items acc seen = Ok (acc', seen') ->
  (length acc < 5)%nat ->
  acc' = take 5 (acc ++ map (entry env) (first_usable seen items))
  /\ Forall (formatted env) (take (5 - length acc) (first_usable seen items))
  /\ ((length acc' < 5)%nat ->
      acc' = acc ++ map (entry env) (first_usable seen items)
      /\ seen' = seen_after seen items).
Proof.
  revert acc seen. induction items as [|r items IH]; intros acc seen H Hlen; simpl in H.
  - injection H as <- <-. simpl. rewrite app_nil_r, take_nil.
    split; [by rewrite take_ge by lia | split; [constructor | done]].
  - apply bind_Ok in H as (dn & Hdn & H). apply bind_Ok in H as (segments & Hseg & H).
    rewrite (scanned_name _ _ _ Hdn Hseg), accepted_usable in H.
    simpl first_usable. simpl seen_after.
    destruct (usable (display_name r) && bool_decide (display_name r ∉ seen)); [|by apply IH].
    apply bind_Ok in H as (e & He & H). cbv zeta in H.
    assert (entry env r = e) as Hentry by (unfold entry; by rewrite He).
    assert (formatted env r) as Hr by (unfold formatted; by rewrite Hentry).
    simpl map. rewrite Hentry, (cons_middle e acc), app_assoc.
    assert (length (acc ++ [e]) = S (length acc)) as Hgrow
      by (rewrite length_app; simpl; lia).
    replace (5 - length acc)%nat with (S (5 - length (acc ++ [e])))%nat by lia.
    rewrite firstn_cons.
    destruct (5 <=? length (acc ++ [e]))%nat eqn:Hfull.
    + injection H as <- <-. apply Nat.leb_le in Hfull.
      assert (length (acc ++ [e]) = 5)%nat as Hfive by lia.
      split; [|split; [|lia]].
      * rewrite <- Hfive at 1. by rewrite take_app_length.
      * rewrite Hfive. simpl. by constructor.
    + apply Nat.leb_gt in Hfull. destruct (IH _ _ H Hfull) as (Ha & Hf & Hc).
      split; [exact Ha | split; [by constructor | exact Hc]].
Qed.

Lemma run_queries_spec (env : environment) (qs : list pystr)
    (acc acc' : list pystr) (seen seen' : gset pystr) (tr tr' : list event) :
  run_queries env qs acc seen tr = (Ok (acc', seen'), tr') ->
  (length acc < 5)%nat ->
  acc' = take 5 (acc ++ map (entry env) (first_usable seen (flat_map (payload env) qs)))
  /\ Forall (formatted env)
            (take (5 - length acc) (first_usable seen (flat_map (payload env) qs))).
Proof.
  revert acc seen tr. induction qs as [|q qs IH]; intros acc seen tr H Hlen; simpl in H.
  - injection H as <- <- <-. simpl. rewrite app_nil_r, take_nil.
    split; [by rewrite take_ge by lia | constructor].
  - unfold mbind, M_bind, call in H. simpl flat_map. unfold payload at 1 3.
    destruct (get (requests env) search_url (params q) headers) as [response|e]; [|discriminate].
    destruct (status_code response =? 200)%Z.
    + unfold lift in H.
      destruct (json response) as [results|e]; [|discriminate]. simpl in H |- *.
      destruct (iterate results) as [items|e]; [|discriminate]. simpl in H.
      destruct (scan_results env items acc seen) as [[acc1 seen1]|e] eqn:Hscan; [|discriminate].
      destruct (scan_results_spec _ _ _ _ _ _ Hscan Hlen) as (Hacc1 & Hfmt & Hcont).
      rewrite first_usable_app, map_app, app_assoc.
      rewrite (take_app _ _ (5 - length acc)), Forall_app.
      destruct (5 <=? length acc1)%nat eqn:Hfull.
      * injection H as <- <- <-. apply Nat.leb_le in Hfull.
        rewrite Hacc1 in Hfull. rewrite length_take, length_app, length_map in Hfull.
        split; [|split; [exact Hfmt|]].
        -- rewrite take_app_le; [exact Hacc1|]. rewrite length_app, length_map. lia.
        -- replace (5 - length acc - length (first_usable seen items))%nat with 0%nat by lia.
           constructor.
      * apply Nat.leb_gt in Hfull. destruct (Hcont Hfull) as [-> ->].
        apply IH in H as [H1 H2]; [|exact Hfull].
        split; [exact H1 | split; [exact Hfmt|]].
        rewrite length_app, length_map in H2.
        by replace (5 - length acc - length (first_usable seen items))%nat
          with (5 - (length acc + length (first_usable seen items)))%nat by lia.
    + simpl in H. destruct (5 <=? length acc)%nat eqn:Hfull.
      * apply Nat.leb_le in Hfull. lia.
      * by apply IH in H.
Qed.

Lemma search_spec (env : environment) (location : pystr) (tr tr' : list event) (s : pystr) :
  search env location tr = (Ok s, tr') ->
  s = listing location (map (entry env) (listed env location))
  /\ Forall (formatted env) (listed env location).
Proof.
  unfold search, mbind, M_bind, mret, M_ret. intros H.
  destruct (run_queries env (queries location) [] ∅ tr) as [[[acc seen]|e] tr1] eqn:Hrun;
    [|discriminate].
  injection H as <- <-.
  apply run_queries_spec in Hrun as [Hacc Hfmt]; [|simpl; lia].
  rewrite app_nil_l in Hacc. change (5 - length (@nil pystr))%nat with 5%nat in Hfmt.
  unfold listed, raw_results.
  rewrite <- firstn_map. by rewrite <- Hacc.
Qed.

Lemma listed_properties (env : environment) (location : pystr) :
  (length (listed env location) <= 5)%nat
  /\ NoDup (map display_name (listed env location))
  /\ Forall (fun r => (4 <= len (display_name r))%nat) (listed env location).
Proof.
  unfold listed.
  destruct (first_usable_names ∅ (raw_results env location)) as [Hnd Hall].
  split; [|split].
  - rewrite length_take. lia.
  - rewrite <- firstn_map. rewrite <- (take_drop 5 (map display_name _)) in Hnd.
    by apply NoDup_app in Hnd as [Hnd _].
  - apply Forall_take. eapply Forall_impl; [exact Hall|]. simpl.
    intros r [Hu _]. unfold usable in Hu. by apply bool_decide_eq_true in Hu.
Qed.

(** C2: whatever the endpoint answers, the listing that
    [locate_therapist_tool] returns is made of the entries of at most 5
    results, which have pairwise different display names of at least 4
    characters; a result whose display name occurred earlier yields no
    entry, so of two results with the same display name only the first is
    listed. *)
Theorem listing_capped_and_unique :
  (forall env location tr,
     fst (locate_therapist_tool env location tr) = Ok (services_unavailable location)
     \/ (fst (locate_therapist_tool env location tr)
         = Ok (listing location (map (entry env) (listed env location)))
         /\ Forall (formatted env) (listed env location)))
  /\ (forall env location,
        (length (listed env location) <= 5)%nat
        /\ NoDup (map display_name (listed env location))
        /\ Forall (fun r => (4 <= len (display_name r))%nat) (listed env location))
  /\ (forall seen l1 r l2,
        In (display_name r) (map display_name l1) ->
        first_usable seen (l1 ++ r :: l2) = first_usable seen (l1 ++ l2))
  /\ (raw_results Mock.same_name_twice Mock.pune = [Mock.hope_mg_road; Mock.hope_fc_road]
      /\ listed Mock.same_name_twice Mock.pune = [Mock.hope_mg_road]
      /\ fst (locate_therapist_tool Mock.same_name_twice Mock.pune [])
         = Ok (listing Mock.pune [entry Mock.same_name_twice Mock.hope_mg_road])).
Proof.
  split; [|split; [exact listed_properties | split]].
  2: { intros seen l1 r l2. apply first_usable_later_duplicate. }
  - intros env location tr. unfold locate_therapist_tool, try_except.
    destruct (search env location tr) as [[s|e] tr1] eqn:Hs; [right | by left].
    simpl. apply search_spec in Hs as [-> Hf]. by split.
  - split; [|split]; vm_compute; reflexivity.
Qed.

Lemma listing_capped_and_unique_witness :
  first_usable ∅ ([Mock.hope_mg_road] ++ Mock.hope_fc_road :: [])
  = first_usable ∅ ([Mock.hope_mg_road] ++ []).
Proof.
  apply (proj1 (proj2 (proj2 listing_capped_and_unique))).
  left. vm_compute. reflexivity.
Defined.

End ListingProofs.

(** ** No results, failures and refused queries *)

Section FailureProofs.
Import Agent LocationSpec.
Local Arguments Nat.leb : simpl never.

Lemma scan_dropped (env : environment) (items : list value)
    (acc : list pystr) (seen : gset pystr) :
  Forall dropped items -> scan_results env items acc seen = Ok (acc, seen).
Proof.
  induction 1 as [|r items (d & s & -> & Hs & Hu) _ IH]; [reflexivity|].
  simpl. rewrite Hs. simpl. rewrite accepted_usable, Hu. exact IH.
Qed.

Lemma run_queries_nothing (env : environment) (qs : list pystr)
    (acc : list pystr) (seen : gset pystr) (tr : list event) :
  Forall (yields_nothing env) qs -> (length acc < 5)%nat ->
  exists tr', run_queries env qs acc seen tr = (Ok (acc, seen), tr').
Proof.
  intros H Hlen. revert tr.
  induction H as [|q qs (response & Hget & Hq) _ IH]; intros tr; simpl; [eauto|].
  unfold mbind, M_bind, call. rewrite Hget.
  assert ((5 <=? length acc)%nat = false) as Hfull by (apply Nat.leb_gt; lia).
  destruct (status_code response =? 200)%Z eqn:Hst.
  - destruct Hq as [Hq|(items & Hjson & Hitems)]; [discriminate|].
    unfold lift. rewrite Hjson. simpl. rewrite (scan_dropped _ _ _ _ Hitems), Hfull. apply IH.
  - simpl. rewrite Hfull. apply IH.
Qed.

Lemma locate_nothing (env : environment) (location : pystr) (tr : list event) :
  Forall (yields_nothing env) (queries location) ->
  fst (locate_therapist_tool env location tr) = Ok (no_listings location).
Proof.
  intros H. unfold locate_therapist_tool, try_except, search, mbind, M_bind.
  destruct (run_queries_nothing env _ [] ∅ tr H) as [tr' ->]; [simpl; lia|].
  reflexivity.
Qed.




Local Arguments format_entry : simpl never.

Lemma scan_results_skipping (env : environment) (items : list value)
    (acc : list pystr) (seen : gset pystr) :
  scan_results (skipping_refusals env) items acc seen = scan_results env items acc seen.
Proof.
  revert acc seen. induction items as [|r items IH]; intros acc seen; [reflexivity|].
  simpl. destruct (dict_get r _ _) as [dn|e]; [simpl|reflexivity].
  destruct (split_method dn 44) as [segments|e]; [simpl|reflexivity].
  destruct (accepted _ _); [|apply IH].
  change (format_entry (skipping_refusals env)) with (format_entry env).
  destruct (format_entry env _ r) as [text|e]; [simpl|reflexivity].
  destruct (5 <=? _)%nat; [reflexivity | apply IH].
Qed.

Lemma run_queries_skipping (env : environment) (qs : list pystr)
    (acc : list pystr) (seen : gset pystr) (tr : list event) :
  run_queries (skipping_refusals env) qs acc seen tr = run_queries env qs acc seen tr.
Proof.
  revert acc seen tr. induction qs as [|q qs IH]; intros acc seen tr; [reflexivity|].
  cbn [run_queries]. unfold mbind, M_bind, call.
  change (get (requests (skipping_refusals env)) search_url (params q) headers)
    with (match get (requests env) search_url (params q) headers with
          | Ok response =>
              if (status_code response =? 200)%Z then Ok response else Ok empty_answer
          | Raise e => Raise e
          end).
  destruct (get (requests env) search_url (params q) headers) as [response|e]; [|reflexivity].
  destruct (status_code response =? 200)%Z eqn:Hst.
  - rewrite Hst. unfold lift.
    destruct (json response) as [results|e]; [simpl|reflexivity].
    destruct (iterate results) as [items|e]; [simpl|reflexivity].
    rewrite scan_results_skipping.
    destruct (scan_results env items acc seen) as [[acc1 seen1]|e]; [|reflexivity].
    destruct (5 <=? _)%nat; [reflexivity | apply IH].
  - simpl. destruct (5 <=? _)%nat; [reflexivity | apply IH].
Qed.

(** C5, as stated, fails: the first query is answered with status 503 and
    the tool returns the listing built from the second query, which is
    neither of its fixed messages. *)
Lemma refused_query_is_not_reported :
  ~ failure_reported Mock.first_query_refused Mock.pune.
Proof.
  intros H. destruct H as (s & Hs & Hfix).
  - left. eexists. split; [vm_compute; reflexivity|]. simpl. lia.
  - vm_compute in Hs. injection Hs as <-.
    destruct Hfix as [Hfix|Hfix]; vm_compute in Hfix; discriminate.
Qed.

(** C5, amended: an answer with a status other than 200 is skipped without
    raising; the tool returns, with the same events, what it returns when
    that answer is an empty list of results, and when all the queries are
    answered so it returns the no-listings message. *)
Theorem refused_query_is_skipped :
  (forall env location tr,
     locate_therapist_tool env location tr
     = locate_therapist_tool (skipping_refusals env) location tr)
  /\ (forall env location tr,
        Forall (refused env) (queries location) ->
        fst (locate_therapist_tool env location tr) = Ok (no_listings location)).
Proof.
  split.
  - intros env location tr.
    unfold locate_therapist_tool, try_except, search, mbind, M_bind.
    by rewrite run_queries_skipping.
  - intros env location tr H. apply locate_nothing.
    eapply Forall_impl; [exact H|]. simpl.
    intros q (response & Hget & Hst). exists response. auto.
Qed.

Lemma refused_query_is_skipped_witness :
  fst (locate_therapist_tool Mock.all_refused Mock.pune []) = Ok (no_listings Mock.pune).
Proof.
  apply (proj2 refused_query_is_skipped).
  repeat constructor; eexists; (split; reflexivity).
Defined.

End FailureProofs.

(** ** The composed address *)

Section AddressProofs.
Import Agent AddressSpec.

Lemma truthy_VStr (s : pystr) : truthy (VStr s) = nonempty s.
Proof. by destruct s. Qed.

Lemma get_default (a : list (pystr * value)) (key : string) (dflt : value) :
  is_text (lookup_key (str key) a) = true ->
  dict_get (VDict a) (str key) dflt
  = Ok (match lookup_key (str key) a with Some _ => VStr (text key a) | None => dflt end).
Proof.
  unfold text. simpl. destruct (lookup_key (str key) a) as [[]|]; simpl; congruence.
Qed.

Lemma get_text (a : list (pystr * value)) (key : string) :
  is_text (lookup_key (str key) a) = true ->
  dict_get (VDict a) (str key) (VStr []) = Ok (VStr (text key a)).
Proof.
  intros H. rewrite (get_default _ _ _ H). unfold text.
  by destruct (lookup_key (str key) a) as [[]|].
Qed.

Lemma textual_address (d : list (pystr * value)) :
  textual (VDict d) = true ->
  dict_get (VDict d) (str "address") (VDict []) = Ok (VDict (address_of (VDict d)))
  /\ forallb (fun key => is_text (lookup_key (str key) (address_of (VDict d))))
             structured_fields = true.
Proof.
  unfold textual, address_of. simpl. intros H. apply andb_prop in H as [_ H].
  destruct (lookup_key (str "address") d) as [[]|]; try discriminate; split; auto.
Qed.

Lemma full_address_composed (env : environment) (result : value) :
  textual result = true ->
  full_address env result = Ok (VStr (composed_address result)).
Proof.
  destruct result as [| | | | |d|]; try discriminate. intros H.
  destruct (textual_address d H) as [Haddr Hfields].
  unfold full_address. rewrite Haddr. cbn [mbind outcome_bind].
  unfold composed_address, composed_parts, street, locality.
  set (a := address_of (VDict d)) in *.
  unfold structured_fields in Hfields. cbn [forallb] in Hfields.
  apply andb_prop in Hfields as [Hhn Hfields]. rewrite (get_text _ _ Hhn).
  cbn [mbind outcome_bind].
  apply andb_prop in Hfields as [Hroad Hfields]. rewrite (get_text _ _ Hroad).
  cbn [mbind outcome_bind].
  apply andb_prop in Hfields as [Hcity Hfields].
  apply andb_prop in Hfields as [Htown Hfields].
  apply andb_prop in Hfields as [Hvillage Hfields].
  rewrite (get_text _ _ Hvillage). cbn [mbind outcome_bind].
  rewrite (get_default _ _ _ Htown). cbn [mbind outcome_bind].
  rewrite (get_default _ _ _ Hcity). cbn [mbind outcome_bind].
  apply andb_prop in Hfields as [Hstate Hfields]. rewrite (get_text _ _ Hstate).
  cbn [mbind outcome_bind].
  apply andb_prop in Hfields as [Hpostcode _]. rewrite (get_text _ _ Hpostcode).
  cbn [mbind outcome_bind].
  assert (match lookup_key (str "city") a with
          | Some _ => VStr (text "city" a)
          | None => match lookup_key (str "town") a with
                    | Some _ => VStr (text "town" a)
                    | None => VStr (text "village" a)
                    end
          end
          = VStr match lookup_key (str "city") a with
                 | Some _ => text "city" a
                 | None => match lookup_key (str "town") a with
                           | Some _ => text "town" a
                           | None => text "village" a
                           end
                 end) as ->
    by (destruct (lookup_key (str "city") a); [|destruct (lookup_key (str "town") a)]; reflexivity).
  generalize (match lookup_key (str "city") a with
              | Some _ => text "city" a
              | None => match lookup_key (str "town") a with
                        | Some _ => text "town" a
                        | None => text "village" a
                        end
              end).
  generalize (text "house_number" a) (text "road" a) (text "state" a) (text "postcode" a).
  unfold display_string.
  assert (dict_get (VDict d) (str "display_name") (VStr (str "Address not available"))
          = Ok (VStr match lookup_key (str "display_name") d with
                     | Some (VStr s) => s
                     | _ => str "Address not available"
                     end)) as Hdisplay.
  { unfold textual in H. simpl.
    destruct (lookup_key (str "display_name") d) as [[]|]; try discriminate; reflexivity. }
  intros [|h0 h] [|r0 r] [|s0 st] [|p0 pc] [|c0 c]; simpl; try exact Hdisplay; reflexivity.
Qed.

Lemma format_entry_composed (env : environment) (name : pystr) (result : value) :
  textual result = true ->
  format_entry env name result = Ok (composed_entry env name result).
Proof.
  intros H. unfold format_entry. rewrite (full_address_composed env result H).
  cbn [mbind outcome_bind].
  destruct result as [| | | | |d|]; try discriminate.
  unfold textual in H. apply andb_prop in H as [H _].
  apply andb_prop in H as [H Hlon]. apply andb_prop in H as [_ Hlat].
  rewrite (get_text _ _ Hlat). cbn [mbind outcome_bind].
  rewrite (get_text _ _ Hlon). cbn [mbind outcome_bind].
  rewrite !truthy_VStr. unfold composed_entry, coordinates.
  cbn [format]. 
  destruct (nonempty (text "lat" d) && nonempty (text "lon" d));
    rewrite <- ?app_assoc; reflexivity.
Qed.

(** On a result with every field filled in, the composition worded by the
    specification and the one of the code agree. *)
Example claimed_address_on_full_results :
  full_address Mock.offline Mock.hope_mg_road
  = Ok (VStr (claimed_address present Mock.hope_mg_road))
  /\ full_address Mock.offline Mock.hope_fc_road
     = Ok (VStr (claimed_address present Mock.hope_fc_road))
  /\ claimed_address present Mock.hope_fc_road = str "12 FC Road, Pune".
Proof. repeat split; vm_compute; reflexivity. Qed.

(** C7, as stated, fails.  With a road, a town and an empty [city] the
    code composes the road alone, while by the stated preference order the
    town follows the road (or, counting a key as present, an empty city
    does); with a house number and nothing else the code falls back to the
    display string although a structured field is there. *)
Lemma empty_city_hides_town :
  (full_address Mock.offline MockAddress.empty_city = Ok (VStr (str "Main Street"))
   /\ claimed_address present MockAddress.empty_city = str "Main Street, Springfield"
   /\ claimed_address held MockAddress.empty_city = str "Main Street, ")
  /\ (full_address Mock.offline MockAddress.lone_house_number
      = Ok (VStr (str "Hope Clinic, 12, Springfield"))
      /\ claimed_address present MockAddress.lone_house_number = []
      /\ claimed_address held MockAddress.lone_house_number = [])
  /\ full_address Mock.offline MockAddress.empty_city
     <> Ok (VStr (claimed_address present MockAddress.empty_city))
  /\ full_address Mock.offline MockAddress.empty_city
     <> Ok (VStr (claimed_address held MockAddress.empty_city)).
Proof.
  repeat split; try (vm_compute; reflexivity); vm_compute; discriminate.
Qed.

(** C7, amended: for a result whose fields are strings the address is made
    of the parts that are not empty among: the house number and the road
    when both are non-empty, else the road; the value under the first key
    that the address has among city, town and village; the state; the
    postcode; joined by [", "]; when no part is left the display string is
    used; the coordinates line is in the entry exactly when latitude and
    longitude are both non-empty. *)
Theorem address_by_preference (env : environment) (name : pystr) (result : value) :
  textual result = true ->
  full_address env result = Ok (VStr (composed_address result))
  /\ format_entry env name result = Ok (composed_entry env name result).
Proof.
  intros H. split; [by apply full_address_composed | by apply format_entry_composed].
Qed.

Lemma address_by_preference_witness :
  textual Mock.hope_fc_road = true
  /\ full_address Mock.offline Mock.hope_fc_road
     = Ok (VStr (composed_address Mock.hope_fc_road))
  /\ format_entry Mock.offline (str "Hope Clinic") Mock.hope_fc_road
     = Ok (composed_entry Mock.offline (str "Hope Clinic") Mock.hope_fc_road).
Proof.
  split; [reflexivity|].
  apply (address_by_preference Mock.offline (str "Hope Clinic") Mock.hope_fc_road).
  reflexivity.
Defined.

End AddressProofs.

(** ** More on the parser *)

Section ParserDomain.
Import Agent AgentSpec.

Lemma for_each_app {A S : Type} (body : S -> A -> outcome S) (xs ys : list A) (st : S) :
  for_each body (xs ++ ys) st = for_each body xs st ≫= for_each body ys.
Proof.
  revert st. induction xs as [|x xs IH]; intros st; [reflexivity|].
  simpl. destruct (body st x) as [st'|e]; [apply IH | reflexivity].
Qed.

Lemma record_tool_Ok_dict (s t t' : value) :
  record_tool s t = Ok t' ->
  is_dict s = true /\ (negb (tool_tagged s) || is_dict (field (str "tools") s)) = true.
Proof.
  unfold record_tool, tool_tagged. intros H.
  apply bind_Ok in H as (tool_data & Hd & H).
  assert (is_dict s = true) as Hs
    by (destruct s; simpl in Hd; try discriminate; [reflexivity | destruct lookup_key; discriminate]).
  apply dict_get_field in Hd. subst. split; [exact Hs|].
  destruct (truthy (field (str "tools") s)); [simpl|reflexivity].
  apply bind_Ok in H as (tm & Hm & _).
  destruct (field (str "tools") s); simpl in Hm; try discriminate; [reflexivity|].
  destruct lookup_key; discriminate.
Qed.

Lemma agent_loop_Ok_content (msgs : list value) (f f' : value) :
  for_each (fun final_response msg =>
              content ← attr msg (str "content");
              if truthy content then Ok content else Ok final_response) msgs f = Ok f' ->
  forallb has_content msgs = true.
Proof.
  revert f. induction msgs as [|msg msgs IH]; intros f H; [reflexivity|].
  simpl in H. apply bind_Ok in H as (f1 & H1 & H). apply IH in H.
  apply bind_Ok in H1 as (c & Hc & _). simpl. rewrite H, andb_true_r.
  unfold attr in Hc. destruct msg; try discriminate. simpl.
  destruct lookup_key; [|discriminate]. apply bool_decide_eq_true. eauto.
Qed.

Lemma record_agent_Ok_dict (s f f' : value) :
  record_agent s f = Ok f' ->
  (negb (agent_tagged s)
   || is_dict (field (str "agent") s) && forallb has_content (agent_messages s)) = true.
Proof.
  unfold record_agent, agent_tagged, agent_messages. intros H.
  apply bind_Ok in H as (agent_data & Hd & H). apply dict_get_field in Hd. subst.
  destruct (truthy (field (str "agent") s)); [simpl|reflexivity].
  apply bind_Ok in H as (ms & Hm & H).
  assert (is_dict (field (str "agent") s) = true) as Ha.
  { destruct (field (str "agent") s); simpl in Hm; try discriminate; [reflexivity|].
    destruct lookup_key; discriminate. }
  rewrite Ha. simpl. apply dict_get_field in Hm. subst.
  destruct (truthy _ && isinstance_list _) eqn:Hl.
  - by apply agent_loop_Ok_content in H.
  - by rewrite truthy_list_items.
Qed.

Lemma parse_loop_Ok_well_formed (stream : list value) (st r : value * value) :
  for_each parse_step stream st = Ok r -> well_formed stream = true.
Proof.
  revert st. induction stream as [|s stream IH]; intros st H; [reflexivity|].
  simpl in H. apply bind_Ok in H as (st' & Hs & H). apply IH in H.
  unfold parse_step in Hs.
  apply bind_Ok in Hs as (t' & Ht & Hs). apply bind_Ok in Hs as (f' & Hf & _).
  apply record_tool_Ok_dict in Ht as [Hd Ht]. apply record_agent_Ok_dict in Hf.
  change (well_formed (s :: stream)) with (well_formed_step s && well_formed stream).
  rewrite H, andb_true_r.
  unfold well_formed_step. by rewrite Hd, Ht, Hf.
Qed.

(** X1: [parse_response] returns exactly on the streams whose steps are
    dicts, whose non-empty ['tools'] and ['agent'] entries are dicts and
    whose agent messages have a [content]; on any other stream it raises,
    and a stream that raises keeps raising however it is continued. *)
Theorem parse_response_domain :
  (forall stream,
     (exists r, parse_response stream = Ok r) <-> well_formed stream = true)
  /\ (forall stream, well_formed stream = false -> exists e, parse_response stream = Raise e)
  /\ (forall stream more e,
        parse_response stream = Raise e -> parse_response (stream ++ more) = Raise e).
Proof.
  split; [|split].
  - intros stream. split.
    + intros [r H]. by apply parse_loop_Ok_well_formed in H.
    + intros H. eexists. by apply parse_response_total.
  - intros stream H. destruct (parse_response stream) as [r|e] eqn:Hp; [|eauto].
    apply parse_loop_Ok_well_formed in Hp. congruence.
  - intros stream more e H. unfold parse_response in *.
    rewrite for_each_app, H. reflexivity.
Qed.

Lemma parse_response_domain_witness :
  (exists e, parse_response [VStr (str "agent")] = Raise e)
  /\ (exists e, parse_response [agent_step [VObj [(str "name", VStr (str "ai"))]]] = Raise e)
  /\ parse_response ([tool_step [tool_message "locate_therapist_tool"];
                      VDict [(str "agent", VList [agent_message "Final answer"])]]
                     ++ [agent_step [agent_message "Final answer"]])
     = Raise AttributeError.
Proof.
  split; [|split].
  - apply (proj1 (proj2 parse_response_domain)). reflexivity.
  - apply (proj1 (proj2 parse_response_domain)). reflexivity.
  - apply (proj2 (proj2 parse_response_domain)). reflexivity.
Defined.

Lemma default_last_later {A : Type} (d x : A) (l : list A) :
  default x (last l) = if decide (l = []) then x else default d (last l).
Proof.
  case_decide as Hl; [by subst|].
  apply last_is_Some in Hl as [y Hy]. by rewrite Hy.
Qed.

(** X2: parsing a stream that continues another one: the tool name and the
    final response of the continuation win when it recorded one, else those
    of the first part stay. *)
Theorem parse_response_app (first more : list value) (t1 r1 t2 r2 : value) :
  parse_response first = Ok (t1, r1) ->
  parse_response more = Ok (t2, r2) ->
  parse_response (first ++ more)
  = Ok (if decide (tool_names more = []) then t1 else t2,
        if decide (truthy_contents more = []) then r1 else r2).
Proof.
  intros H1 H2.
  assert (well_formed (first ++ more) = true) as Hwf.
  { pose proof (parse_loop_Ok_well_formed _ _ _ H1) as W1.
    pose proof (parse_loop_Ok_well_formed _ _ _ H2) as W2.
    unfold well_formed in *. by rewrite forallb_app, W1, W2. }
  rewrite (parse_response_total _ Hwf).
  apply parse_response_spec in H1. apply parse_response_spec in H2.
  injection H1 as -> ->. injection H2 as -> ->.
  unfold last_tool_name, last_content, tool_names, truthy_contents.
  rewrite !flat_map_app, !default_last_app.
  apply (f_equal Ok). apply (f_equal2 pair); apply default_last_later.
Qed.

Lemma parse_response_app_witness :
  parse_response ([tool_step [tool_message "locate_therapist_tool"];
                   agent_step [agent_message "Here are some options"]]
                  ++ [agent_step [agent_message ""; agent_message "Final answer"]])
  = Ok (VStr (str "locate_therapist_tool"), VStr (str "Final answer")).
Proof.
  apply (parse_response_app
           [tool_step [tool_message "locate_therapist_tool"];
            agent_step [agent_message "Here are some options"]]
           [agent_step [agent_message ""; agent_message "Final answer"]]
           (VStr (str "locate_therapist_tool")) (VStr (str "Here are some options"))
           (VStr (str "None")) (VStr (str "Final answer")));
    reflexivity.
Defined.

End ParserDomain.

Section ParserProvenance.
Import Agent AgentSpec.

Lemma truthy_content_attr (msg c : value) :
  content msg = c -> truthy c = true -> attr msg (str "content") = Ok c.
Proof.
  unfold content, getattr, attr. destruct msg; try (intros <-; discriminate).
  destruct lookup_key; simpl; [by intros -> | intros <-; discriminate].
Qed.

(** X3: what [parse_response] returns comes from the stream: the tool name
    is the sentinel ["None"] or the name some tool message is seen with, and
    the final response is [None] or the truthy [content] of some agent
    message. *)
Theorem parse_response_provenance (stream : list value) (t r : value) :
  parse_response stream = Ok (t, r) ->
  (t = VStr (str "None")
   \/ exists s msg, In s stream /\ In msg (tool_messages s) /\ t = seen_name msg)
  /\ (r = VNone
      \/ truthy r = true
         /\ exists s msg, In s stream /\ In msg (agent_messages s)
                          /\ attr msg (str "content") = Ok r).
Proof.
  intros H. apply parse_response_spec in H. injection H as -> ->. split.
  - unfold last_tool_name. destruct (last (tool_names stream)) as [x|] eqn:Hl; [right | by left].
    apply last_Some_elem_of, list_elem_of_In in Hl. unfold tool_names in Hl.
    apply in_flat_map in Hl as (s & Hs & Hx). apply in_map_iff in Hx as (msg & <- & Hm).
    simpl. eauto.
  - unfold last_content. destruct (last (truthy_contents stream)) as [x|] eqn:Hl; [right | by left].
    apply last_Some_elem_of, list_elem_of_In in Hl. unfold truthy_contents in Hl.
    apply in_flat_map in Hl as (s & Hs & Hx).
    apply list_elem_of_In, list_elem_of_filter in Hx as [Ht Hx].
    apply list_elem_of_In, in_map_iff in Hx as (msg & Hc & Hm).
    apply Is_true_true in Ht. simpl. split; [exact Ht|].
    exists s, msg. repeat split; try assumption. by apply truthy_content_attr.
Qed.

Lemma parse_response_provenance_witness :
  (VStr (str "locate_therapist_tool") = VStr (str "None")
   \/ exists s msg, In s three_steps /\ In msg (tool_messages s)
                    /\ VStr (str "locate_therapist_tool") = seen_name msg)
  /\ (VStr (str "Final answer") = VNone
      \/ truthy (VStr (str "Final answer")) = true
         /\ exists s msg, In s three_steps /\ In msg (agent_messages s)
                          /\ attr msg (str "content") = Ok (VStr (str "Final answer"))).
Proof.
  apply (parse_response_provenance three_steps). reflexivity.
Defined.

End ParserProvenance.

(** ** More on the language-model client *)

Section Replies.
Import Tools ModelSpec TraceSpec.

Lemma lstrip_head (s : pystr) (c : N) :
  head (lstrip s) = Some c -> isspace c = false.
Proof.
  induction s as [|c0 s IH]; simpl; [discriminate|].
  destruct (isspace c0) eqn:Hc; [exact IH|]. simpl. by intros [= <-].
Qed.

Lemma lstrip_suffix (s : pystr) : exists p, s = p ++ lstrip s.
Proof.
  induction s as [|c s [p IH]]; simpl; [by exists []|].
  destruct (isspace c); [|by exists []].
  exists (c :: p). simpl. by rewrite <- IH.
Qed.

Lemma last_rev {A : Type} (l : list A) : last (rev l) = head l.
Proof. destruct l as [|x l]; [reflexivity|]. simpl. apply last_snoc. Qed.

Lemma rstrip_prefix (s : pystr) : exists w, s = rstrip s ++ w.
Proof.
  unfold rstrip. destruct (lstrip_suffix (rev s)) as [p Hp].
  exists (rev p). rewrite <- rev_app_distr, <- Hp. by rewrite rev_involutive.
Qed.

Lemma strip_trimmed (s : pystr) : trimmed (strip s).
Proof.
  unfold trimmed, strip. split; intros c Hc.
  - destruct (rstrip_prefix (lstrip s)) as [w Hw].
    apply (lstrip_head s). rewrite Hw.
    destruct (rstrip (lstrip s)); [discriminate | exact Hc].
  - unfold rstrip in Hc. rewrite last_rev in Hc. by apply lstrip_head in Hc.
Qed.

Lemma fixed_replies_trimmed : trimmed backend_unavailable /\ trimmed generation_failed.
Proof.
  split; split; intros c H; vm_compute in H; injection H as <-; reflexivity.
Qed.

(** X4: whatever the backend does, the reply of [query_medgemma] has no
    whitespace at its start or at its end. *)
Theorem reply_is_trimmed (env : environment) (prompt : pystr) (tr : list event) :
  exists s, fst (query_medgemma env prompt tr) = Ok s /\ trimmed s.
Proof.
  destruct fixed_replies_trimmed as [Hu Hf].
  unfold query_medgemma. destruct (ollama env) as [backend|]; [|eauto].
  unfold try_except, mbind, M_bind, call, lift, mret, M_ret.
  destruct (chat backend _ _ _) as [response|e]; [|eauto].
  destruct (subscript response _) as [message|e]; [|eauto].
  destruct (subscript message _) as [content|e]; [|eauto].
  destruct (strip_method content) as [s|e] eqn:Hs; [|eauto].
  apply strip_method_VStr in Hs as (text & -> & ->).
  exists (strip text). split; [reflexivity | apply strip_trimmed].
Qed.

Local Ltac failed_generation :=
  split; [reflexivity | split; [reflexivity | split; [by left|]]];
  first [discriminate | intros; reflexivity].

Lemma one_chat_request_cases (env : environment) (backend : ollama_module)
    (prompt : pystr) (tr : list event) :
  ollama env = Some backend ->
  snd (query_medgemma env prompt tr)
  = tr ++ [Chat chat_model (chat_messages prompt) chat_options]
  /\ last (list_items (chat_messages prompt))
     = Some (VDict [(str "role", VStr (str "user")); (str "content", VStr prompt)])
  /\ (fst (query_medgemma env prompt tr) = Ok generation_failed
      \/ exists response message text,
           chat backend chat_model (chat_messages prompt) chat_options = Ok response
           /\ subscript response (str "message") = Ok message
           /\ subscript message (str "content") = Ok (VStr text)
           /\ fst (query_medgemma env prompt tr) = Ok (strip text))
  /\ (forall e, chat backend chat_model (chat_messages prompt) chat_options = Raise e ->
        fst (query_medgemma env prompt tr) = Ok generation_failed).
Proof.
  intros Hb. unfold query_medgemma. rewrite Hb.
  unfold try_except, mbind, M_bind, call, lift, mret, M_ret.
  destruct (chat backend _ _ _) as [response|e] eqn:Hc; [|failed_generation].
  destruct (subscript response _) as [message|e] eqn:Hm; [|failed_generation].
  destruct (subscript message _) as [content|e] eqn:Hn; [|failed_generation].
  destruct (strip_method content) as [s|e] eqn:Hs; [|failed_generation].
  apply strip_method_VStr in Hs as (text & -> & ->).
  split; [reflexivity | split; [reflexivity | split; [|discriminate]]].
  right. exists response, message, text. eauto.
Qed.

(** X5: with a backend, [query_medgemma] sends exactly one chat request,
    for the fixed model with the persona prompt first and the user's prompt
    last; its reply is the stripped content when the response holds a
    string under ['message']['content'], and the generation-failed apology
    in every other case, in particular when the call raises. *)
Theorem one_chat_request (env : environment) (backend : ollama_module)
    (prompt : pystr) (tr : list event) :
  ollama env = Some backend ->
  snd (query_medgemma env prompt tr)
  = tr ++ [Chat chat_model (chat_messages prompt) chat_options]
  /\ last (list_items (chat_messages prompt))
     = Some (VDict [(str "role", VStr (str "user")); (str "content", VStr prompt)])
  /\ (fst (query_medgemma env prompt tr) = Ok generation_failed
      \/ exists response message text,
           chat backend chat_model (chat_messages prompt) chat_options = Ok response
           /\ subscript response (str "message") = Ok message
           /\ subscript message (str "content") = Ok (VStr text)
           /\ fst (query_medgemma env prompt tr) = Ok (strip text))
  /\ (forall e, chat backend chat_model (chat_messages prompt) chat_options = Raise e ->
        fst (query_medgemma env prompt tr) = Ok generation_failed)
  /\ (forall response message text,
        chat backend chat_model (chat_messages prompt) chat_options = Ok response ->
        subscript response (str "message") = Ok message ->
        subscript message (str "content") = Ok (VStr text) ->
        fst (query_medgemma env prompt tr) = Ok (strip text))
  /\ (~ (exists response message text,
           chat backend chat_model (chat_messages prompt) chat_options = Ok response
           /\ subscript response (str "message") = Ok message
           /\ subscript message (str "content") = Ok (VStr text)) ->
      fst (query_medgemma env prompt tr) = Ok generation_failed).
Proof.
  intros Hb.
  destruct (one_chat_request_cases env backend prompt tr Hb) as (Hev & Hlast & Hcases & Hraise).
  split; [exact Hev|]. split; [exact Hlast|]. split; [exact Hcases|].
  split; [exact Hraise|]. split.
  - intros response message text Hc Hm Hn.
    by rewrite (query_medgemma_generated env backend prompt tr _ _ _ Hb Hc Hm Hn).
  - intros Hno. destruct Hcases as [Hfail|(response & message & text & Hc & Hm & Hn & _)];
      [exact Hfail|].
    exfalso. apply Hno. exists response, message, text. repeat split; assumption.
Qed.

Lemma one_chat_request_witness :
  fst (query_medgemma (Mock.with_ollama (Raise (ServiceError "ResponseError")))
                      (str "I feel low") [])
  = Ok generation_failed
  /\ fst (query_medgemma (Mock.with_ollama (Ok (Mock.chat_reply (str "  You are not alone.  "))))
                         (str "I feel low") [])
     = Ok (strip (str "  You are not alone.  "))
  /\ fst (query_medgemma
            (Mock.with_ollama (Ok (VDict [(str "message", VDict [(str "content", VNone)])])))
            (str "I feel low") [])
     = Ok generation_failed.
Proof.
  split; [|split].
  - eapply (proj1 (proj2 (proj2 (proj2
             (one_chat_request (Mock.with_ollama (Raise (ServiceError "ResponseError")))
                _ (str "I feel low") [] eq_refl))))).
    reflexivity.
  - eapply (proj1 (proj2 (proj2 (proj2 (proj2
             (one_chat_request
                (Mock.with_ollama (Ok (Mock.chat_reply (str "  You are not alone.  "))))
                _ (str "I feel low") [] eq_refl))))));
      reflexivity.
  - apply (proj2 (proj2 (proj2 (proj2 (proj2
             (one_chat_request
                (Mock.with_ollama (Ok (VDict [(str "message", VDict [(str "content", VNone)])])))
                _ (str "I feel low") [] eq_refl)))))).
    intros (response & message & text & Hc & Hm & Hn).
    simpl in Hc. injection Hc as <-.
    vm_compute in Hm. injection Hm as <-.
    vm_compute in Hn. discriminate.
Defined.

End Replies.

(** ** More on the emergency call client *)

Section CallLog.
Import Tools CallSpec TraceSpec.

(** X6: [call_emergency] either creates the call, prints nothing and
    returns the record that Twilio returned, or returns [None] after
    printing exactly one line. *)
Theorem call_emergency_log (env : environment) (tr : list event) :
  exists v evs,
    call_emergency env tr = (Ok v, tr ++ evs)
    /\ ((evs = [emergency_call env]
         /\ exists cls client,
              Client env = Some cls
              /\ cls (TWILIO_ACCOUNT_SID env) (TWILIO_AUTH_TOKEN env) = Ok client
              /\ calls_create client (EMERGENCY_CONTACT env) (TWILIO_FROM_NUMBER env) voice_url
                 = Ok v)
        \/ (v = VNone /\ length (printed evs) = 1%nat)).
Proof.
  unfold call_emergency, emergency_call.
  destruct (Client env) as [cls|] eqn:Hc.
  - unfold try_except, mbind, M_bind, call, lift, mret, M_ret, print, call.
    destruct (cls _ _) as [client|e] eqn:Hcl.
    + destruct (calls_create client _ _ _) as [record|e] eqn:Hcr.
      * eexists record, [_]. split; [reflexivity|]. left. split; [reflexivity|]. eauto.
      * eexists VNone, [_; _]. rewrite <- app_assoc. split; [reflexivity|]. by right.
    + eexists VNone, [_]. split; [reflexivity|]. by right.
  - unfold mbind, M_bind, print, call, mret, M_ret.
    eexists VNone, [_]. split; [reflexivity|]. by right.
Qed.

End CallLog.

(** ** More on the location client *)

Section Requests.
Import Agent LocationSpec AddressSpec TraceSpec.
Local Arguments Nat.leb : simpl never.
Local Arguments format_entry : simpl never.

Lemma run_queries_trace (env : environment) (qs : list pystr)
    (acc : list pystr) (seen : gset pystr) (tr tr' : list event)
    (r : outcome (list pystr * gset pystr)) :
  run_queries env qs acc seen tr = (r, tr') ->
  exists k, (k <= length qs)%nat
    /\ (qs = [] \/ 1 <= k)%nat
    /\ tr' = tr ++ map request (take k qs)
    /\ match r with
       | Ok (acc', _) =>
           Forall (answered env) (take k qs) /\ (k = length qs \/ 5 <= length acc')%nat
       | Raise _ => True
       end.
Proof.
  revert acc seen tr. induction qs as [|q qs IH]; intros acc seen tr H.
  - simpl in H. injection H as <- <-. exists 0%nat. simpl. rewrite app_nil_r.
    repeat split; auto.
  - cbn [run_queries] in H. unfold mbind, M_bind, call in H.
    assert (forall e, (Raise e, tr ++ [request q]) = (r, tr') ->
            exists k, (k <= length (q :: qs))%nat
              /\ (q :: qs = [] \/ 1 <= k)%nat
              /\ tr' = tr ++ map request (take k (q :: qs))
              /\ match r with
                 | Ok (acc', _) =>
                     Forall (answered env) (take k (q :: qs))
                     /\ (k = length (q :: qs) \/ 5 <= length acc')%nat
                 | Raise _ => True
                 end) as Hraise.
    { intros e [= <- <-]. exists 1%nat. simpl. repeat split; auto; lia. }
    assert (forall response acc1 seen1,
              get (requests env) search_url (params q) headers = Ok response ->
              ((status_code response =? 200)%Z = true ->
               exists results items, json response = Ok results /\ iterate results = Ok items) ->
              (if (5 <=? length acc1)%nat then mret (acc1, seen1)
               else run_queries env qs acc1 seen1) (tr ++ [request q]) = (r, tr') ->
              exists k, (k <= length (q :: qs))%nat
                /\ (q :: qs = [] \/ 1 <= k)%nat
                /\ tr' = tr ++ map request (take k (q :: qs))
                /\ match r with
                   | Ok (acc', _) =>
                       Forall (answered env) (take k (q :: qs))
                       /\ (k = length (q :: qs) \/ 5 <= length acc')%nat
                   | Raise _ => True
                   end) as Hnext.
    { intros response acc1 seen1 Hget Hjson Hrun.
      assert (answered env q) as Hq by (exists response; auto).
      destruct (5 <=? length acc1)%nat eqn:Hfull.
      - injection Hrun as <- <-. apply Nat.leb_le in Hfull.
        exists 1%nat. simpl. repeat split; auto; lia.
      - apply IH in Hrun as (k & Hk & _ & -> & Hr).
        exists (S k). simpl. rewrite <- app_assoc. repeat split; auto; try lia.
        destruct r as [[acc' seen']|e]; [|exact I].
        destruct Hr as [Hall Hend]. split; [constructor; assumption|].
        destruct Hend as [->|Hfive]; [by left | by right]. }
    fold (request q) in H.
    destruct (get (requests env) search_url (params q) headers) as [response|e] eqn:Hget;
      [|eapply Hraise; exact H].
    destruct (status_code response =? 200)%Z eqn:Hst.
    + unfold lift in H.
      destruct (json response) as [results|e] eqn:Hj;
        [simpl in H | eapply Hraise; exact H].
      destruct (iterate results) as [items|e] eqn:Hi;
        [simpl in H | eapply Hraise; exact H].
      destruct (scan_results env items acc seen) as [[acc1 seen1]|e];
        [|eapply Hraise; exact H].
      eapply (Hnext response acc1 seen1 eq_refl); [eauto | exact H].
    + simpl in H. eapply (Hnext response acc seen eq_refl); [congruence | exact H].
Qed.

Lemma locate_events (env : environment) (location : pystr) (tr : list event) :
  snd (locate_therapist_tool env location tr)
  = snd (run_queries env (queries location) [] ∅ tr).
Proof.
  unfold locate_therapist_tool, try_except, search, mbind, M_bind.
  by destruct (run_queries env (queries location) [] ∅ tr) as [[[acc seen]|e] tr'].
Qed.

(** X7: one invocation of [locate_therapist_tool] sends between one and
    four requests and does nothing else to the outside: its events are the
    requests of the first queries of the list, in order, each to the search
    URL with the fixed parameters and headers. *)
Theorem requests_are_a_prefix (env : environment) (location : pystr) (tr : list event) :
  exists k, (1 <= k <= 4)%nat
    /\ snd (locate_therapist_tool env location tr)
       = tr ++ map request (take k (queries location)).
Proof.
  rewrite locate_events.
  destruct (run_queries env (queries location) [] ∅ tr) as [r tr'] eqn:Hrun.
  apply run_queries_trace in Hrun as (k & Hk & [Hq|Hk1] & -> & _); [discriminate|].
  exists k. simpl in Hk. auto.
Qed.

(** X8: a reply other than the services-unavailable apology is never built
    on a failed request: every request that was sent got an answer, a 200
    answer with a payload that could be scanned, and the four queries were
    all sent unless 5 results are listed. *)
Theorem no_partial_listing (env : environment) (location : pystr) (tr : list event) :
  fst (locate_therapist_tool env location tr) <> Ok (services_unavailable location) ->
  exists k,
    snd (locate_therapist_tool env location tr) = tr ++ map request (take k (queries location))
    /\ Forall (answered env) (take k (queries location))
    /\ (k = 4%nat \/ length (listed env location) = 5%nat).
Proof.
  intros Hs. rewrite locate_events.
  unfold locate_therapist_tool, try_except, search, mbind, M_bind in Hs.
  destruct (run_queries env (queries location) [] ∅ tr) as [[[acc seen]|e] tr'] eqn:Hrun;
    [|by destruct Hs].
  pose proof Hrun as Htrace.
  apply run_queries_trace in Htrace as (k & _ & _ & -> & Hall & Hend).
  apply run_queries_spec in Hrun as [Hacc _]; [|simpl; lia].
  exists k. repeat split; [assumption|].
  destruct Hend as [->|Hfive]; [by left | right].
  rewrite app_nil_l in Hacc. rewrite Hacc, length_take, length_map in Hfive.
  unfold listed, raw_results. rewrite length_take. lia.
Qed.

Lemma no_partial_listing_witness :
  exists k,
    snd (locate_therapist_tool Mock.first_query_refused Mock.pune [])
    = [] ++ map request (take k (queries Mock.pune))
    /\ Forall (answered Mock.first_query_refused) (take k (queries Mock.pune))
    /\ (k = 4%nat \/ length (listed Mock.first_query_refused Mock.pune) = 5%nat).
Proof.
  apply (no_partial_listing Mock.first_query_refused Mock.pune []).
  vm_compute. discriminate.
Defined.

End Requests.

Section DocumentedAnswers.
Import Agent LocationSpec AddressSpec TraceSpec.
Local Arguments Nat.leb : simpl never.
Local Arguments format_entry : simpl never.

Lemma textual_display_name (r : value) :
  textual r = true ->
  exists s, dict_get r (str "display_name") (VStr []) = Ok (VStr s).
Proof.
  destruct r as [| | | | |d|]; try discriminate. unfold textual. intros H.
  apply andb_prop in H as [H _]. apply andb_prop in H as [H _].
  apply andb_prop in H as [H _]. simpl.
  destruct (lookup_key (str "display_name") d) as [[]|]; try discriminate; simpl; eauto.
Qed.

Lemma scan_textual (env : environment) (items : list value)
    (acc : list pystr) (seen : gset pystr) :
  Forall (fun r => textual r = true) items ->
  exists st, scan_results env items acc seen = Ok st.
Proof.
  intros H. revert acc seen.
  induction H as [|r items Hr _ IH]; intros acc seen; simpl; [eauto|].
  destruct (textual_display_name r Hr) as [s ->]. simpl.
  destruct (accepted _ seen); [|apply IH].
  rewrite (format_entry_composed env _ r Hr). simpl.
  destruct (5 <=? _)%nat; [eauto | apply IH].
Qed.

Lemma run_queries_textual (env : environment) (qs : list pystr)
    (acc : list pystr) (seen : gset pystr) (tr : list event) :
  Forall (well_answered env) qs ->
  exists st tr', run_queries env qs acc seen tr = (Ok st, tr').
Proof.
  intros H. revert acc seen tr.
  induction H as [|q qs (response & Hget & Hq) _ IH]; intros acc seen tr; simpl; [eauto|].
  unfold mbind, M_bind, call. rewrite Hget.
  destruct (status_code response =? 200)%Z eqn:Hst.
  - destruct Hq as [Hq|(items & Hjson & Hitems)]; [discriminate|].
    unfold lift. rewrite Hjson. simpl.
    destruct (scan_textual env items acc seen Hitems) as [[acc1 seen1] ->].
    destruct (5 <=? _)%nat; [eauto | apply IH].
  - simpl. destruct (5 <=? _)%nat; [eauto | apply IH].
Qed.

Lemma payload_textual (env : environment) (q : pystr) :
  well_answered env q -> Forall (fun r => textual r = true) (payload env q).
Proof.
  intros (response & Hget & Hq). unfold payload. rewrite Hget.
  destruct (status_code response =? 200)%Z; [|constructor].
  destruct Hq as [Hq|(items & -> & Hitems)]; [discriminate | exact Hitems].
Qed.

Lemma first_usable_In (seen : gset pystr) (results : list value) (r : value) :
  In r (first_usable seen results) -> In r results.
Proof.
  revert seen. induction results as [|r' results IH]; intros seen; simpl; [tauto|].
  destruct (usable _ && bool_decide _); [intros [->|H] | intros H]; eauto.
Qed.

Lemma listed_textual (env : environment) (location : pystr) (r : value) :
  Forall (well_answered env) (queries location) ->
  In r (listed env location) -> textual r = true.
Proof.
  intros Hall Hin. unfold listed in Hin.
  assert (In r (first_usable ∅ (raw_results env location))) as Hr.
  { rewrite <- (take_drop 5 (first_usable ∅ (raw_results env location))).
    apply in_or_app. by left. }
  apply first_usable_In in Hr. unfold raw_results in Hr.
  apply in_flat_map in Hr as (q & Hq & Hr).
  rewrite Forall_forall in Hall. apply list_elem_of_In, Hall, payload_textual in Hq.
  rewrite Forall_forall in Hq. by apply Hq, list_elem_of_In.
Qed.

(** X9: when every query is answered as the endpoint documents (a status
    other than 200, or a list of results whose display string, coordinates
    and address fields are strings), [locate_therapist_tool] does not fall
    back to its apology: it returns the listing (or the no-listings
    message) of the listed results, each entry composed from the result's
    fields. *)
Theorem documented_answers_are_listed (env : environment) (location : pystr)
    (tr : list event) :
  Forall (well_answered env) (queries location) ->
  fst (locate_therapist_tool env location tr)
  = Ok (listing location
          (map (fun r => composed_entry env (display_name r) r) (listed env location))).
Proof.
  intros Hall.
  destruct (run_queries_textual env _ [] ∅ tr Hall) as ([acc seen] & tr' & Hrun).
  assert (search env location tr = (Ok (listing location acc), tr')) as Hs
    by (unfold search, mbind, M_bind; by rewrite Hrun).
  unfold locate_therapist_tool, try_except. rewrite Hs. simpl.
  apply search_spec in Hs as [-> _]. do 2 f_equal.
  apply map_ext_in. intros r Hr. unfold entry.
  by rewrite (format_entry_composed env _ r (listed_textual env location r Hall Hr)).
Qed.

Lemma documented_answers_are_listed_witness :
  fst (locate_therapist_tool Mock.same_name_twice Mock.pune [])
  = Ok (listing Mock.pune
          (map (fun r => composed_entry Mock.same_name_twice (display_name r) r)
               (listed Mock.same_name_twice Mock.pune))).
Proof.
  apply (documented_answers_are_listed Mock.same_name_twice Mock.pune []).
  repeat constructor; eexists; (split; [reflexivity|]);
    right; eexists; (split; [reflexivity|]); repeat constructor.
Defined.

Lemma app_nonempty (a b : pystr) : a <> [] -> a ++ b <> [].
Proof. destruct a; [congruence | discriminate]. Qed.

(** X10: whatever happens, [locate_therapist_tool] hands back a non-empty
    string in which the requested location occurs. *)
Theorem reply_names_the_location (env : environment) (location : pystr) (tr : list event) :
  exists s before after,
    fst (locate_therapist_tool env location tr) = Ok s
    /\ s = before ++ location ++ after
    /\ s <> [].
Proof.
  unfold locate_therapist_tool, try_except, search, mbind, M_bind.
  destruct (run_queries env (queries location) [] ∅ tr) as [[[acc seen]|e] tr'].
  - unfold mret, M_ret, listing. cbn [fst].
    destruct (truthy (VList (map VStr acc))).
    + exists (header location ++ join (nl ++ nl) acc ++ footer),
             (str "Here are mental health professionals and clinics I found near "),
             (str ":" ++ nl ++ nl ++ join (nl ++ nl) acc ++ footer).
      split; [reflexivity|]. unfold header. split.
      * by rewrite <- !app_assoc.
      * rewrite <- !app_assoc. apply app_nonempty. vm_compute. discriminate.
    + exists (no_listings location),
             (str "I couldn't find specific therapist listings near "),
             (str " using OpenStreetMap. Please consider searching for local mental health directories or contacting your local health department for professional referrals.").
      split; [reflexivity|]. unfold no_listings. split; [reflexivity|].
      apply app_nonempty. vm_compute. discriminate.
  - exists (services_unavailable location),
           (str "I'm having trouble accessing location services right now. For immediate help, please contact your local mental health crisis hotline or search for therapists in "),
           (str " through online directories.").
    split; [reflexivity|]. unfold services_unavailable. split; [reflexivity|].
    apply app_nonempty. vm_compute. discriminate.
Qed.

End DocumentedAnswers.

Section DisplayNames.
Import Agent LocationSpec.





End DisplayNames.

Section EarlyStop.
Import Agent LocationSpec TraceSpec.
Local Arguments Nat.leb : simpl never.

Lemma payload_items (env : environment) (q : pystr) (response : response)
    (results : value) (items : list value) :
  get (requests env) search_url (params q) headers = Ok response ->
  (status_code response =? 200)%Z = true ->
  json response = Ok results -> iterate results = Ok items ->
  payload env q = items.
Proof. intros Hget Hst Hj Hi. unfold payload. rewrite Hget, Hst, Hj. simpl. by rewrite Hi. Qed.

Lemma payload_refused (env : environment) (q : pystr) (response : response) :
  get (requests env) search_url (params q) headers = Ok response ->
  (status_code response =? 200)%Z = false ->
  payload env q = [].
Proof. intros Hget Hst. unfold payload. by rewrite Hget, Hst. Qed.

Lemma run_queries_stops (env : environment) (qs : list pystr)
    (acc acc' : list pystr) (seen seen' : gset pystr) (tr tr' : list event) :
  run_queries env qs acc seen tr = (Ok (acc', seen'), tr') ->
  (length acc < 5)%nat ->
  exists k,
    tr' = tr ++ map request (take k qs)
    /\ forall j, (j < k)%nat ->
         (length acc + length (first_usable seen (flat_map (payload env) (take j qs))) < 5)%nat.
Proof.
  revert acc seen tr. induction qs as [|q qs IH]; intros acc seen tr H Hlen.
  - simpl in H. injection H as <- <- <-. exists 0%nat. rewrite app_nil_r.
    split; [reflexivity | lia].
  - cbn [run_queries] in H. unfold mbind, M_bind, call in H. fold (request q) in H.
    assert (forall j, (j < 1)%nat ->
              (length acc
               + length (first_usable seen (flat_map (payload env) (take j (q :: qs)))) < 5)%nat)
      as Hfirst by (intros j Hj; replace j with 0%nat by lia; simpl; lia).
    destruct (get (requests env) search_url (params q) headers) as [response|e] eqn:Hget;
      [|discriminate].
    destruct (status_code response =? 200)%Z eqn:Hst.
    + unfold lift in H.
      destruct (json response) as [results|e] eqn:Hj; [simpl in H | discriminate].
      destruct (iterate results) as [items|e] eqn:Hi; [simpl in H | discriminate].
      destruct (scan_results env items acc seen) as [[acc1 seen1]|e] eqn:Hscan;
        [|discriminate].
      destruct (scan_results_spec _ _ _ _ _ _ Hscan Hlen) as (_ & _ & Hcont).
      destruct (5 <=? length acc1)%nat eqn:Hfull.
      * injection H as <- <- <-. exists 1%nat. split; [reflexivity | exact Hfirst].
      * apply Nat.leb_gt in Hfull. destruct (Hcont Hfull) as [Hacc1 Hseen1].
        apply IH in H as (k & -> & Hk); [|exact Hfull].
        exists (S k). split; [simpl; by rewrite <- app_assoc|].
        intros [|j] Hj'; [apply Hfirst; lia|].
        simpl take. simpl flat_map.
        rewrite (payload_items _ _ _ _ _ Hget Hst Hj Hi), first_usable_app, length_app.
        rewrite <- Hseen1. specialize (Hk j ltac:(lia)).
        rewrite Hacc1, length_app, length_map in Hk. lia.
    + simpl in H. destruct (5 <=? length acc)%nat eqn:Hfull.
      * apply Nat.leb_le in Hfull. lia.
      * apply IH in H as (k & -> & Hk); [|exact Hlen].
        exists (S k). split; [simpl; by rewrite <- app_assoc|].
        intros [|j] Hj'; [apply Hfirst; lia|].
        simpl take. simpl flat_map.
        rewrite (payload_refused _ _ _ Hget Hst). simpl. apply Hk. lia.
Qed.

(** X12: [locate_therapist_tool] stops asking once it has 5 results: in a
    run that does not end in the apology, a query is sent only when the
    answers to the queries before it left fewer than 5 results to list. *)
Theorem requests_stop_at_five (env : environment) (location : pystr) (tr : list event) :
  fst (locate_therapist_tool env location tr) <> Ok (services_unavailable location) ->
  exists k,
    snd (locate_therapist_tool env location tr) = tr ++ map request (take k (queries location))
    /\ forall j, (j < k)%nat ->
         (length (first_usable ∅ (flat_map (payload env) (take j (queries location)))) < 5)%nat.
Proof.
  intros Hs. unfold locate_therapist_tool, try_except, search, mbind, M_bind in *.
  destruct (run_queries env (queries location) [] ∅ tr) as [[[acc seen]|e] tr'] eqn:Hrun;
    [|by destruct Hs].
  apply run_queries_stops in Hrun as (k & -> & Hk); [|simpl; lia].
  exists k. split; [reflexivity | exact Hk].
Qed.

Lemma requests_stop_at_five_witness :
  snd (locate_therapist_tool Mock.crowded Mock.pune []) = [request (str "therapist Pune")]
  /\ exists k,
       snd (locate_therapist_tool Mock.crowded Mock.pune [])
       = [] ++ map request (take k (queries Mock.pune))
       /\ forall j, (j < k)%nat ->
            (length (first_usable ∅ (flat_map (payload Mock.crowded)
                                              (take j (queries Mock.pune)))) < 5)%nat.
Proof.
  split; [vm_compute; reflexivity|].
  apply (requests_stop_at_five Mock.crowded Mock.pune []).
  vm_compute. discriminate.
Defined.

End EarlyStop.

Section FallbackDecorator.
Import Fallback.

Lemma fallback_tool_is_identity {F : Type} (f : F) (kwargs : list (pystr * value)) :
  tool (Some f) kwargs = inl f
  /\ exists decorator, tool None kwargs = inr decorator /\ decorator f = f.
Proof. split; [reflexivity | by eexists]. Qed.

End FallbackDecorator.
